(** * autofix: workspace auto-setup, embedded from [src/autofix.py]

    The script inspects the working directory, picks the toolchains that
    apply and shells out to them.  The embedding keeps the three effects
    the script has: it reads the file system, it spawns child processes
    (which may change the file system), and it prints lines.  Python
    exceptions are results of the monad, so that [try]/[except] and
    [sys.exit] are modelled the way the script uses them.

    The operating system and the Python runtime are a parameter [Env] of
    every function.  Left out: failures of [print] itself, decoding errors
    of captured process output, and spawn failures other than "executable
    not found" (permissions, signals). *)

From Stdlib Require Import ZArith Ascii.
From stdpp Require Import gmap strings list pretty.

Local Open Scope Z_scope.
Set Warnings "-register-all".

(** ** The world outside the script *)

(** An entry of the working directory, keyed by the path as the script
    spells it.  [read_text()] succeeds on [File], fails to decode on
    [Undecodable] (bytes that are not text in the locale's encoding) and
    fails with an [OSError] on the rest. *)
Inductive node :=
  | Dir
  | File (text : string)
  | Undecodable
  | Unreadable.

Abbreviation FS := (gmap string node).

(** What [json.loads] produces. An object keeps its members in document
    order; [dict_get] below resolves duplicate keys as a Python dict does. *)
Inductive json :=
  | JNull
  | JBool (b : bool)
  | JNum (literal : string)
  | JStr (s : string)
  | JArr (items : list json)
  | JObj (members : list (string * json)).

(** [Union[str, List[str]]] *)
Inductive command :=
  | CmdStr (s : string)
  | CmdList (l : list string).

Inductive oserror := ENOENT | EACCES | EISDIR.

(** The exceptions the script can meet. [OSError ENOENT] is
    [FileNotFoundError]; [IOError] is Python 3's alias of [OSError]. *)
Inductive exn :=
  | SystemExit (code : Z)
  | CalledProcessError (returncode : Z) (stderr : string)
  | OSError (e : oserror)
  | UnicodeDecodeError
  | JSONDecodeError
  | AttributeError
  | TypeError
  | IndexError.

Inductive result (A : Type) :=
  | Ok (a : A)
  | Raise (e : exn).
Arguments Ok {A} a.
Arguments Raise {A} e.

(** [subprocess.CompletedProcess] *)
Record completed := Completed {
  returncode : Z;
  stdout : string;
  stderr : string
}.

Inductive spawned :=
  | Exited (c : completed)
  | NoSuchExecutable.

(** A program receives its argument vector and working directory and may
    change the file system. *)
Definition program : Type := list string → option string → FS → completed * FS.

(** Everything the script takes from the Python runtime and the operating
    system:
    - [os_name_nt] is [os.name == 'nt'];
    - [lookup_executable] resolves the first element of an argument vector
      (the PATH search of [execvp]/[CreateProcess]);
    - [shell] runs an argument vector through the platform shell
      ([shell=True]);
    - [json_loads] is [json.loads], [None] standing for [JSONDecodeError];
    - [str_list] is [str()] of a list of strings, as an f-string renders it;
    - [str_strip] is [str.strip()], which removes the white space of
      Unicode at both ends.

    The hosts described are those on which an executable that is found
    can be started, the working directory handed to [subprocess.run]
    exists and captured output decodes as text: [PermissionError], a
    missing [cwd] and [UnicodeDecodeError] of process output are not
    among the answers of [lookup_executable] and [shell]. *)
Record Env := {
  os_name_nt : bool;
  sys_executable : string;
  lookup_executable : FS → string → option program;
  shell : list string → option string → FS → spawned * FS;
  json_loads : string → option json;
  str_list : list string → string;
  str_strip : string → string
}.

(** What a run does that can be observed from outside: a printed line,
    a call of [subprocess.run] (every attempt to start a child process,
    whether or not the executable is then found), the reading of a file. *)
Inductive event :=
  | EPrint (line : string)
  | ESpawn (cmd : command) (shell : bool) (cwd : option string)
  | ERead (path : string).

Global Instance command_eq_dec : EqDecision command.
Proof. solve_decision. Defined.
Global Instance event_eq_dec : EqDecision event.
Proof. solve_decision. Defined.

(** ** The monad: file-system state, emitted events, exceptions *)

Definition M (A : Type) : Type := FS → result A * FS * list event.

Definition ret {A} (a : A) : M A := λ fs, (Ok a, fs, []).

Definition bind {A B} (m : M A) (k : A → M B) : M B := λ fs,
  match m fs with
  | (Ok a, fs1, ev1) =>
      match k a fs1 with
      | (r, fs2, ev2) => (r, fs2, ev1 ++ ev2)
      end
  | (Raise e, fs1, ev1) => (Raise e, fs1, ev1)
  end.

Definition raise {A} (e : exn) : M A := λ fs, (Raise e, fs, []).

(** [try: m  except ...: h e]; the handler answers [None] for an exception
    no [except] clause matches, which then propagates. *)
Definition try_except {A} (m : M A) (h : exn → option (M A)) : M A := λ fs,
  match m fs with
  | (Ok a, fs1, ev1) => (Ok a, fs1, ev1)
  | (Raise e, fs1, ev1) =>
      match h e with
      | Some k =>
          match k fs1 with
          | (r, fs2, ev2) => (r, fs2, ev1 ++ ev2)
          end
      | None => (Raise e, fs1, ev1)
      end
  end.

Declare Scope py_scope.
Delimit Scope py_scope with py.
Notation "x <- m ;; k" := (bind m (λ x, k))
  (at level 100, m at next level, right associativity) : py_scope.
Notation "m ;; k" := (bind m (λ _, k))
  (at level 100, right associativity) : py_scope.
Local Open Scope py_scope.

Definition outcome {A} (x : result A * FS * list event) : result A := x.1.1.
Definition final_fs {A} (x : result A * FS * list event) : FS := x.1.2.
Definition events {A} (x : result A * FS * list event) : list event := x.2.

(** ** Primitives *)

(** [print(line)] on a standard output that takes every line: a closed
    stream, or one whose encoding lacks a character printed, is not among
    the hosts described. *)
Definition print (line : string) : M unit := λ fs, (Ok (), fs, [EPrint line]).

(** [p] is an entry of the working directory. *)
Definition present (fs : FS) (p : string) : bool := bool_decide (is_Some (fs !! p)).

(** [pathlib.Path(p).exists()] *)
Definition path_exists (p : string) : M bool := λ fs, (Ok (present fs p), fs, []).

(** [pathlib.Path(p).read_text()] *)
Definition read_text (p : string) : M string := λ fs,
  (match fs !! p with
   | Some (File t) => Ok t
   | Some Undecodable => Raise UnicodeDecodeError
   | Some Unreadable => Raise (OSError EACCES)
   | Some Dir => Raise (OSError EISDIR)
   | None => Raise (OSError ENOENT)
   end, fs, [ERead p]).

(** ** String helpers of the Python runtime *)

(** [' '.join(l)] and friends *)
Fixpoint join (sep : string) (l : list string) : string :=
  match l with
  | [] => ""
  | [s] => s
  | s :: rest => s +:+ sep +:+ join sep rest
  end.

(** [needle in hay] on strings *)
Fixpoint contains (needle hay : string) : bool :=
  String.prefix needle hay ||
  match hay with
  | EmptyString => false
  | String _ rest => contains needle rest
  end.

(** White space within ASCII, and the [strip] of the example hosts below,
    whose texts are ASCII. *)
Definition is_space (a : ascii) : bool :=
  let n := N_of_ascii a in
  ((9 <=? n) && (n <=? 13) || (28 <=? n) && (n <=? 32))%N.

Fixpoint lstrip (s : string) : string :=
  match s with
  | String a rest => if is_space a then lstrip rest else s
  | EmptyString => EmptyString
  end.

Definition ascii_strip (s : string) : string :=
  String.rev (lstrip (String.rev (lstrip s))).

(** [s.split('\n')[-1]]: what follows the last line feed. *)
Fixpoint last_line_go (cur s : string) : string :=
  match s with
  | EmptyString => String.rev cur
  | String a rest =>
      if Ascii.eqb a "010"%char then last_line_go "" rest
      else last_line_go (String a cur) rest
  end.
Definition last_line (s : string) : string := last_line_go "" s.

(** Truthiness of a string. *)
Definition nonempty (s : string) : bool :=
  match s with EmptyString => false | _ => true end.

(** ** Constants of the module *)

Definition PROJECT_DETECTORS : list (string * list string) :=
  [ ("node", ["package.json"]);
    ("python", ["requirements.txt"; "pyproject.toml"; "setup.py"]);
    ("rust", ["Cargo.toml"]);
    ("flutter", ["pubspec.yaml"]);
    ("git", [".git"]) ].

Inductive venv_key := KPython | KPip.

Definition VENV_PATHS (windows : bool) (k : venv_key) : string :=
  match windows, k with
  | true, KPython => "Scripts/python.exe"
  | true, KPip => "Scripts/pip.exe"
  | false, KPython => "bin/python"
  | false, KPip => "bin/pip"
  end.

Record RuntimeConfig := {
  dry_run : bool;
  verbose : bool;
  is_windows : bool
}.

Definition venv_paths (config : RuntimeConfig) : venv_key → string :=
  VENV_PATHS (is_windows config).

(** [str(pathlib.Path(".venv") / rel)]: a Windows path prints with
    backslashes. *)
Fixpoint backslashes (s : string) : string :=
  match s with
  | EmptyString => EmptyString
  | String a rest =>
      String (if Ascii.eqb a "/"%char then "\"%char else a) (backslashes rest)
  end.

Definition venv_path (config : RuntimeConfig) (k : venv_key) : string :=
  if is_windows config
  then ".venv\" +:+ backslashes (venv_paths config k)
  else ".venv/" +:+ venv_paths config k.

Section Autofix.

Variable E : Env.

(** ** subprocess.run(..., check=True) *)

(** The argument vector [Popen] builds from [args]. *)
Definition popen_args (cmd : command) : list string :=
  match cmd with
  | CmdStr s => [s]
  | CmdList l => l
  end.

(** Starting the child: through the shell, or by looking up the first
    element of the argument vector; a string given without a shell is an
    argument vector of one element, the whole string. *)
Definition spawn (cmd : command) (use_shell : bool) (cwd : option string)
    (fs : FS) : result spawned * FS :=
  let args := popen_args cmd in
  if use_shell then
    let '(o, fs') := shell E args cwd fs in (Ok o, fs')
  else
    match args with
    | [] => (Raise IndexError, fs)
    | a0 :: _ =>
        match lookup_executable E fs a0 with
        | None => (Ok NoSuchExecutable, fs)
        | Some p => let '(c, fs') := p args cwd fs in (Ok (Exited c), fs')
        end
    end.

Definition subprocess_run (cmd : command) (use_shell : bool)
    (cwd : option string) : M completed := λ fs,
  let '(o, fs') := spawn cmd use_shell cwd fs in
  (match o with
   | Raise e => Raise e
   | Ok NoSuchExecutable => Raise (OSError ENOENT)
   | Ok (Exited c) =>
       if returncode c =? 0 then Ok c
       else Raise (CalledProcessError (returncode c) (stderr c))
   end, fs', [ESpawn cmd use_shell cwd]).

(** ** class CommandRunner *)

(** [' '.join(cmd) if isinstance(cmd, list) else cmd] *)
Definition cmd_display (cmd : command) : string :=
  match cmd with
  | CmdList l => join " " l
  | CmdStr s => s
  end.

(** [f"{cmd}"] *)
Definition cmd_format (cmd : command) : string :=
  match cmd with
  | CmdStr s => s
  | CmdList l => str_list E l
  end.

Definition _prepare_command (config : RuntimeConfig) (cmd : command) : command :=
  match cmd with
  | CmdList l => if is_windows config then CmdStr (join " " l) else cmd
  | CmdStr _ => cmd
  end.

Definition _handle_error (config : RuntimeConfig) (cmd : command)
    (rc : Z) (err : string) : M unit :=
  print ("  ❌ Command failed: " +:+ cmd_display cmd) ;;
  if verbose config then
    print ("  Error code: " +:+ pretty rc) ;;
    if nonempty err then print ("  Error: " +:+ str_strip E err) else ret ()
  else if nonempty err then
    print ("  Error: " +:+ last_line (str_strip E err))
  else ret ().

Definition execute (config : RuntimeConfig) (cmd : command)
    (cwd : option string) : M bool :=
  if dry_run config then
    print ("  [DRY] " +:+ cmd_display cmd) ;;
    ret true
  else
    let shell_cmd := _prepare_command config cmd in
    try_except
      ((if verbose config
        then print ("  Running: " +:+ cmd_display cmd) else ret ()) ;;
       result <- subprocess_run shell_cmd (is_windows config) cwd ;;
       (if verbose config && nonempty (str_strip E (stdout result))
        then print ("  Output: " +:+ str_strip E (stdout result)) else ret ()) ;;
       ret true)
      (λ e, match e with
            | CalledProcessError rc err =>
                Some (_handle_error config cmd rc err ;; ret false)
            | OSError ENOENT =>
                Some (print ("  ❌ Command not found: " +:+ cmd_format cmd) ;;
                      ret false)
            | _ => None
            end).

(** ** Python's [all], [any] over a generator: evaluation stops at the
    first element that decides the answer. *)

Fixpoint py_all (ms : list (M bool)) : M bool :=
  match ms with
  | [] => ret true
  | m :: rest => b <- m ;; if b then py_all rest else ret false
  end.

Fixpoint py_any (ms : list (M bool)) : M bool :=
  match ms with
  | [] => ret false
  | m :: rest => b <- m ;; if b then ret true else py_any rest
  end.

(** ** class ProjectDetector *)

Fixpoint detect_in (table : list (string * list string)) : M (list string) :=
  match table with
  | [] => ret []
  | (lang, files) :: rest =>
      found <- py_any (map path_exists files) ;;
      langs <- detect_in rest ;;
      ret (if found then lang :: langs else langs)
  end.

Definition detect_languages : M (list string) := detect_in PROJECT_DETECTORS.

Definition _has_command (cmd : string) : M bool :=
  try_except
    (subprocess_run (CmdStr (cmd +:+ " --version")) true None ;; ret true)
    (λ e, match e with
          | CalledProcessError _ _ | OSError ENOENT => Some (ret false)
          | _ => None
          end).

Definition lock_files : list (string * string) :=
  [("pnpm-lock.yaml", "pnpm"); ("yarn.lock", "yarn"); ("package-lock.json", "npm")].

(** The [for lock_file, pm in lock_files] loop with its early [return pm];
    [None] when the loop falls through. *)
Fixpoint first_locked (l : list (string * string)) : M (option string) :=
  match l with
  | [] => ret None
  | (lock_file, pm) :: rest =>
      present <- path_exists lock_file ;;
      usable <- (if present then _has_command pm else ret false) ;;
      if usable then ret (Some pm) else first_locked rest
  end.

(** [next((pm for pm in l if _has_command(pm)), None)] *)
Fixpoint next_available (l : list string) : M (option string) :=
  match l with
  | [] => ret None
  | pm :: rest =>
      usable <- _has_command pm ;;
      if usable then ret (Some pm) else next_available rest
  end.

Definition get_package_manager : M (option string) :=
  locked <- first_locked lock_files ;;
  match locked with
  | Some pm => ret (Some pm)
  | None => next_available ["npm"; "pnpm"; "yarn"]
  end.

(** ** class ProjectSetup *)

Definition _install_python_deps (config : RuntimeConfig) (pip_path : string)
    : M bool :=
  has_requirements <- path_exists "requirements.txt" ;;
  if has_requirements then
    print "  Installing requirements.txt..." ;;
    execute config (CmdList [pip_path; "install"; "-r"; "requirements.txt"]) None
  else
    has_pyproject <- path_exists "pyproject.toml" ;;
    if has_pyproject then
      print "  Installing pyproject.toml..." ;;
      execute config (CmdList [pip_path; "install"; "-e"; "."]) None
    else ret true.

(** The command that creates the virtual environment. *)
Definition venv_create_cmd : command :=
  CmdList [sys_executable E; "-m"; "venv"; ".venv"].

Definition setup_python (config : RuntimeConfig) : M bool :=
  print "🐍 Python setup..." ;;
  let venv_pip := venv_path config KPip in
  venv_present <- path_exists ".venv" ;;
  created <- (if negb venv_present then
                print "  Creating virtual environment..." ;;
                execute config venv_create_cmd None
              else ret true) ;;
  if negb created then ret false
  else _install_python_deps config venv_pip.

Definition setup_node (config : RuntimeConfig) : M bool :=
  print "📦 Node.js setup..." ;;
  pm <- get_package_manager ;;
  match pm with
  | None =>
      print "  ❌ No package manager found. Install Node.js from https://nodejs.org/" ;;
      ret false
  | Some pm =>
      print ("  Using: " +:+ pm) ;;
      locked <- (if bool_decide (pm = "npm")
                 then path_exists "package-lock.json" else ret false) ;;
      clean <- (if locked then execute config (CmdStr "npm ci") None
                else ret false) ;;
      if clean then ret true
      else execute config (CmdStr (pm +:+ " install")) None
  end.

Definition setup_rust (config : RuntimeConfig) : M bool :=
  print "🦀 Rust setup..." ;;
  has_cargo <- _has_command "cargo" ;;
  if negb has_cargo then
    print "  ❌ Cargo not found. Install from https://rustup.rs/" ;;
    ret false
  else execute config (CmdList ["cargo"; "fetch"]) None.

Definition _has_build_runner (config : RuntimeConfig) : M bool :=
  present <- path_exists "pubspec.yaml" ;;
  if negb present || dry_run config then ret false
  else
    try_except
      (text <- read_text "pubspec.yaml" ;;
       ret (contains "build_runner:" text))
      (λ e, match e with
            | OSError _ => Some (ret false)
            | _ => None
            end).

Definition flutter_build_cmd : command :=
  CmdStr "flutter packages pub run build_runner build --delete-conflicting-outputs".

Definition setup_flutter (config : RuntimeConfig) : M bool :=
  print "🐦 Flutter setup..." ;;
  has_flutter <- _has_command "flutter" ;;
  if negb has_flutter then
    print "  ❌ Flutter not found. Install from https://flutter.dev/" ;;
    ret false
  else
    success <- execute config (CmdStr "flutter pub get") None ;;
    generate <- _has_build_runner config ;;
    if generate then
      built <- execute config flutter_build_cmd None ;;
      ret (success && built)
    else ret success.

Definition _get_python_executable (config : RuntimeConfig) : M string :=
  let venv_python := venv_path config KPython in
  present <- path_exists venv_python ;;
  ret (if present then venv_python else sys_executable E).

Definition setup_git_hooks (config : RuntimeConfig) : M bool :=
  configured <- path_exists ".pre-commit-config.yaml" ;;
  if negb configured then ret true
  else
    print "🔗 Pre-commit setup..." ;;
    python_cmd <- _get_python_executable config ;;
    execute config (CmdList [python_cmd; "-m"; "pre_commit"; "install"]) None.

(** ** class CodeFormatter *)

Definition _has_python_package (python_exe package : string) : M bool :=
  try_except
    (subprocess_run (CmdList [python_exe; "-c"; "import " +:+ package]) false None ;;
     ret true)
    (λ e, match e with
          | CalledProcessError _ _ | OSError ENOENT => Some (ret false)
          | _ => None
          end).

(** The [for formatter_name, cmd in formatters] loop of [_format_python]. *)
Fixpoint first_formatter (config : RuntimeConfig) (venv_python : string)
    (formatters : list (string * command)) : M bool :=
  match formatters with
  | [] => ret true
  | (formatter_name, cmd) :: rest =>
      installed <- _has_python_package venv_python formatter_name ;;
      if installed then
        print ("✨ Formatting with " +:+ formatter_name +:+ "...") ;;
        execute config cmd None
      else first_formatter config venv_python rest
  end.

Definition _format_python (config : RuntimeConfig) : M bool :=
  let venv_python := venv_path config KPython in
  present <- path_exists venv_python ;;
  if negb present then ret true
  else
    first_formatter config venv_python
      [ ("ruff", CmdList [venv_python; "-m"; "ruff"; "format"; "."]);
        ("black", CmdList [venv_python; "-m"; "black"; "."]) ].

(** [json.loads(text)] *)
Definition loads (text : string) : M json :=
  match json_loads E text with
  | Some j => ret j
  | None => raise JSONDecodeError
  end.

(** Lookup in the dict built from an object's members: a later duplicate
    of a key overwrites an earlier one. *)
Fixpoint dict_get (key : string) (members : list (string * json)) : option json :=
  match members with
  | [] => None
  | (k, v) :: rest =>
      match dict_get key rest with
      | Some later => Some later
      | None => if bool_decide (k = key) then Some v else None
      end
  end.

(** [pkg_data.get(key, {})]: only a dict has [get]. *)
Definition json_get (pkg_data : json) (key : string) : M json :=
  match pkg_data with
  | JObj members => ret (default (JObj []) (dict_get key members))
  | _ => raise AttributeError
  end.

(** [item == key] for a string [key]: only an equal string compares equal. *)
Definition json_eq_str (key : string) (item : json) : bool :=
  match item with
  | JStr s => bool_decide (s = key)
  | _ => false
  end.

(** [key in container] for a string [key]. *)
Definition json_in (key : string) (container : json) : M bool :=
  match container with
  | JObj members => ret (bool_decide (key ∈ members.*1))
  | JArr items => ret (existsb (json_eq_str key) items)
  | JStr s => ret (contains key s)
  | JNull | JBool _ | JNum _ => raise TypeError
  end.

Definition _has_npm_format_script : M bool :=
  present <- path_exists "package.json" ;;
  if negb present then ret false
  else
    try_except
      (text <- read_text "package.json" ;;
       pkg_data <- loads text ;;
       scripts <- json_get pkg_data "scripts" ;;
       json_in "format" scripts)
      (λ e, match e with
            | JSONDecodeError | OSError _ => Some (ret false)
            | _ => None
            end).

Definition prettier_configs : list string :=
  [".prettierrc"; "prettier.config.js"; ".prettierrc.json"].

Definition _format_node (config : RuntimeConfig) : M bool :=
  scripted <- _has_npm_format_script ;;
  if scripted then
    print "✨ Running npm format..." ;;
    execute config (CmdStr "npm run format") None
  else
    configured <- py_any (map path_exists prettier_configs) ;;
    if configured then
      print "✨ Formatting with Prettier..." ;;
      execute config (CmdStr "npx prettier --write .") None
    else ret true.

Definition _format_flutter (config : RuntimeConfig) : M bool :=
  print "✨ Formatting Dart..." ;;
  execute config (CmdStr "dart format .") None.

Definition format_all (config : RuntimeConfig) (detected_languages : list string)
    : M bool :=
  let success := true in
  success <- (if bool_decide ("python" ∈ detected_languages)
              then ok <- _format_python config ;; ret (success && ok)
              else ret success) ;;
  success <- (if bool_decide ("node" ∈ detected_languages)
              then ok <- _format_node config ;; ret (success && ok)
              else ret success) ;;
  success <- (if bool_decide ("flutter" ∈ detected_languages)
              then ok <- _format_flutter config ;; ret (success && ok)
              else ret success) ;;
  ret success.

(** ** parse_arguments and main *)

Definition LF : string := String "010"%char EmptyString.

Definition __doc__ : string :=
  LF +:+ "autofix – Smart workspace auto-setup for developers." +:+ LF +:+
  "Usage: python autofix.py [-n] [--help] [-v]" +:+ LF.

Definition parse_arguments (argv : list string) : M RuntimeConfig :=
  if bool_decide ("--help" ∈ argv) || bool_decide ("-h" ∈ argv) then
    print __doc__ ;;
    print (LF +:+ "Options:") ;;
    print "  -n, --dry-run    Show what would be done without executing" ;;
    print "  -v, --verbose    Show detailed output and error messages" ;;
    print "  -h, --help       Show this help message" ;;
    raise (SystemExit 0)
  else
    ret {| dry_run := bool_decide ("--dry-run" ∈ argv) || bool_decide ("-n" ∈ argv);
           verbose := bool_decide ("--verbose" ∈ argv) || bool_decide ("-v" ∈ argv);
           is_windows := os_name_nt E |}.

(** The [setup_methods] dict of [main]. *)
Definition setup_methods (config : RuntimeConfig) : list (string * M bool) :=
  [ ("python", setup_python config); ("node", setup_node config);
    ("rust", setup_rust config); ("flutter", setup_flutter config);
    ("git", setup_git_hooks config) ].

Fixpoint assoc {A} (key : string) (table : list (string * A)) : option A :=
  match table with
  | [] => None
  | (k, v) :: rest => if bool_decide (k = key) then Some v else assoc key rest
  end.

(** The generator [setup_methods[p]() for p in detected if p in
    setup_methods]: one deferred call per applicable ecosystem. *)
Definition applicable_setups (config : RuntimeConfig) (detected : list string)
    : list (M bool) :=
  omap (λ project_type, assoc project_type (setup_methods config)) detected.

(** [all(setup_methods[p]() for p in detected if p in setup_methods)] *)
Definition run_setups (config : RuntimeConfig) (detected : list string) : M bool :=
  py_all (applicable_setups config detected).

Definition main (argv : list string) : M unit :=
  config <- parse_arguments argv ;;
  print "🔍 Detecting projects..." ;;
  detected <- detect_languages ;;
  match detected with
  | [] => print "No supported projects found."
  | _ =>
      print ("✅ Found: " +:+ join ", " detected) ;;
      success <- run_setups config detected ;;
      formatted <- format_all config detected ;;
      let success := success && formatted in
      if success then
        print (LF +:+ "🎉 Setup complete!") ;;
        if bool_decide ("python" ∈ detected) then
          let activate_cmd :=
            if is_windows config then ".venv\Scripts\activate"
            else "source .venv/bin/activate" in
          print ("💡 Activate: " +:+ activate_cmd)
        else ret ()
      else
        print (LF +:+ "⚠️ Some steps failed.") ;;
        (if negb (verbose config)
         then print "💡 Run with -v flag for detailed errors" else ret ()) ;;
        raise (SystemExit 1)
  end.

End Autofix.

(** The status the interpreter exits with: 0 when [main] returns, the
    argument of [sys.exit], and 1 for any other exception that reaches the
    top level. *)
Definition exit_status (r : result unit) : Z :=
  match r with
  | Ok _ => 0
  | Raise (SystemExit code) => code
  | Raise _ => 1
  end.

(** ** Vocabulary of the statements *)

(** The event a call [execute(cmd, cwd)] always leaves behind: the
    dry-run line, or the call of [subprocess.run]. *)
Definition exec_mark (config : RuntimeConfig) (cmd : command)
    (cwd : option string) : event :=
  if dry_run config then EPrint ("  [DRY] " +:+ cmd_display cmd)
  else ESpawn (_prepare_command config cmd) (is_windows config) cwd.

(** [cmd] was handed to [execute] (without a working directory, as every
    strategy does) somewhere in [evs]. *)
Definition attempted (config : RuntimeConfig) (cmd : command)
    (evs : list event) : Prop :=
  exec_mark config cmd None ∈ evs.

(** How often it was. *)
Definition attempts (config : RuntimeConfig) (cmd : command)
    (evs : list event) : nat :=
  length (filter (λ e, e = exec_mark config cmd None) evs).

(** The two probes: [_has_command] and [_has_python_package]. *)
Definition is_probe (e : event) : Prop :=
  (∃ tool, e = ESpawn (CmdStr (tool +:+ " --version")) true None) ∨
  (∃ python_exe package,
     e = ESpawn (CmdList [python_exe; "-c"; "import " +:+ package]) false None).

Definition is_spawn (e : event) : Prop :=
  match e with ESpawn _ _ _ => True | _ => False end.

Definition is_print (e : event) : Prop :=
  match e with EPrint _ => True | _ => False end.

(** The policy of a run: prints and reads are free, a call of
    [subprocess.run] must be one of the two probes. *)
Definition spawns_are_probes (e : event) : Prop := is_spawn e → is_probe e.

(** Any exception but [SystemExit]. *)
Definition not_exit (e : exn) : Prop := ∀ code, e ≠ SystemExit code.

(** [m] emits only events in [P] and raises only exceptions in [Q]. *)
Definition respects (P : event → Prop) (Q : exn → Prop) {A} (m : M A) : Prop :=
  ∀ fs, Forall P (events (m fs)) ∧ ∀ e, outcome (m fs) = Raise e → Q e.

Definition help_requested (argv : list string) : Prop :=
  "--help" ∈ argv ∨ "-h" ∈ argv.

Definition dry_run_requested (argv : list string) : Prop :=
  "--dry-run" ∈ argv ∨ "-n" ∈ argv.

(** The configuration [parse_arguments] builds when no help is asked. *)
Definition config_of (E : Env) (argv : list string) : RuntimeConfig :=
  {| dry_run := bool_decide ("--dry-run" ∈ argv) || bool_decide ("-n" ∈ argv);
     verbose := bool_decide ("--verbose" ∈ argv) || bool_decide ("-v" ∈ argv);
     is_windows := os_name_nt E |}.

(** The ecosystems whose markers are in [fs], in table order. *)
Definition detected_in (fs : FS) : list string :=
  (filter (λ entry, existsb (present fs) entry.2) PROJECT_DETECTORS).*1.

(** The answer of the capability probe for [tool] in [fs]. *)
Definition probe (E : Env) (fs : FS) (tool : string) : bool :=
  match outcome (_has_command E tool fs) with
  | Ok b => b
  | Raise _ => false
  end.

(** The probes of the three package managers leave [fs] as it is. *)
Definition probes_read_only (E : Env) (fs : FS) : Prop :=
  ∀ tool, tool ∈ ["pnpm"; "yarn"; "npm"] → final_fs (_has_command E tool fs) = fs.

(** The decision order of the specification, section 4.3, as a table of
    first-match-wins rules. *)
Definition spec_select_package_manager (lock : string → bool)
    (available : string → bool) : option string :=
  if lock "pnpm-lock.yaml" && available "pnpm" then Some "pnpm"
  else if lock "yarn.lock" && available "yarn" then Some "yarn"
  else if lock "package-lock.json" && available "npm" then Some "npm"
  else if available "npm" then Some "npm"
  else if available "pnpm" then Some "pnpm"
  else if available "yarn" then Some "yarn"
  else None.

(** The failure policy of the specification, section 4.4: every applicable
    strategy is executed unconditionally and the results are and-ed. *)
Fixpoint spec_run_all (ms : list (M bool)) : M bool :=
  match ms with
  | [] => ret true
  | m :: rest => b <- m ;; bs <- spec_run_all rest ;; ret (b && bs)
  end.



(** No executable reachable in [fs] has a blank in its name. *)
Definition executables_without_blanks (E : Env) (fs : FS) : Prop :=
  ∀ name, is_Some (lookup_executable E fs name) → contains " " name = false.

(** The string commands the strategies hand to [execute]. *)
Definition strategy_string_commands : list string :=
  [ "npm ci"; "npm install"; "pnpm install"; "yarn install"; "flutter pub get";
    "flutter packages pub run build_runner build --delete-conflicting-outputs";
    "npm run format"; "npx prettier --write ."; "dart format ." ].

(** What [--help] prints. *)
Definition help_lines : list event :=
  [ EPrint __doc__; EPrint (LF +:+ "Options:");
    EPrint "  -n, --dry-run    Show what would be done without executing";
    EPrint "  -v, --verbose    Show detailed output and error messages";
    EPrint "  -h, --help       Show this help message" ].

(** The setup strategy of an ecosystem, section 4.4 of the specification:
    one per ecosystem of the detection table. *)
Definition setup_strategy (E : Env) (config : RuntimeConfig) (ecosystem : string)
    : option (M bool) :=
  if bool_decide (ecosystem = "python") then Some (setup_python E config)
  else if bool_decide (ecosystem = "node") then Some (setup_node E config)
  else if bool_decide (ecosystem = "rust") then Some (setup_rust E config)
  else if bool_decide (ecosystem = "flutter") then Some (setup_flutter E config)
  else if bool_decide (ecosystem = "git") then Some (setup_git_hooks E config)
  else None.

(** The formatting strategy of an ecosystem, section 4.5, where it has
    one. *)
Definition format_strategy (E : Env) (config : RuntimeConfig) (ecosystem : string)
    : option (M bool) :=
  if bool_decide (ecosystem = "python") then Some (_format_python E config)
  else if bool_decide (ecosystem = "node") then Some (_format_node E config)
  else if bool_decide (ecosystem = "flutter") then Some (_format_flutter E config)
  else None.

(** The ecosystems that have a formatting strategy, in the order in which
    the formatting phase takes them. *)
Definition formatted_ecosystems : list string := ["python"; "node"; "flutter"].

(** The strategies that apply to a run, in the order of the run: the setup
    strategy of every detected ecosystem, in detection order, then the
    formatting strategy of every detected ecosystem that has one. *)
Definition applicable_strategies (E : Env) (config : RuntimeConfig)
    (detected : list string) : list (M bool) :=
  omap (setup_strategy E config) detected
  ++ omap (format_strategy E config)
       (filter (λ ecosystem, ecosystem ∈ detected) formatted_ecosystems).

(** Every strategy of the list returns true, each one started in the file
    system that the one before it left.  A strategy that returns false or
    raises makes the answer false, whatever comes after it. *)
Fixpoint all_report_success (strategies : list (M bool)) (fs : FS) : bool :=
  match strategies with
  | [] => true
  | strategy :: rest =>
      match outcome (strategy fs) with
      | Ok true => all_report_success rest (final_fs (strategy fs))
      | _ => false
      end
  end.

(** The call of [subprocess.run] that [_has_command tool] makes. *)
Definition probe_event (tool : string) : event :=
  ESpawn (CmdStr (tool +:+ " --version")) true None.

(** The last character of a string. *)
Fixpoint last_char (s : string) : option ascii :=
  match s with
  | EmptyString => None
  | String a rest =>
      match last_char rest with
      | None => Some a
      | Some b => Some b
      end
  end.

(** ** Example hosts *)

(** A working directory given by its entries. *)
Definition files (l : list (string * node)) : FS := list_to_map l.

Definition exit_with (code : Z) (err : string) : completed :=
  {| returncode := code; stdout := ""; stderr := err |}.

(** A shell that knows the command lines of [table] and answers 127 to
    the rest; it leaves the file system alone. *)
Definition table_shell (table : list (string * completed))
    : list string → option string → FS → spawned * FS :=
  λ args _ fs,
    match args with
    | line :: _ =>
        (Exited (default (exit_with 127 "command not found") (assoc line table)), fs)
    | [] => (Exited (exit_with 2 ""), fs)
    end.

Definition render_list (l : list string) : string :=
  "[" +:+ join ", " (map (λ s, "'" +:+ s +:+ "'") l) +:+ "]".

(** A Unix host whose shell knows [table] and that has no executable on
    its PATH. *)
Definition unix_host (table : list (string * completed)) : Env :=
  {| os_name_nt := false;
     sys_executable := "/usr/bin/python3";
     lookup_executable := λ _ _, None;
     shell := table_shell table;
     json_loads := λ text, if bool_decide (text = "[]") then Some (JArr []) else None;
     str_list := render_list;
     str_strip := ascii_strip |}.

(** A Windows host: every command of [execute] goes through the shell. *)
Definition windows_host (table : list (string * completed)) : Env :=
  {| os_name_nt := true;
     sys_executable := "C:\Python\python.exe";
     lookup_executable := λ _ _, None;
     shell := table_shell table;
     json_loads := λ _, None;
     str_list := render_list;
     str_strip := ascii_strip |}.

(** [python -m venv .venv] creates the directory; any other invocation
    of the interpreter or of pip succeeds and changes nothing. *)
Definition python_program : program :=
  λ args _ fs,
    match args with
    | [_; "-m"; "venv"; dir] => (exit_with 0 "", <[dir := Dir]> fs)
    | _ => (exit_with 0 "", fs)
    end.

(** A Unix host with a Python interpreter and the pip of the virtual
    environment on the PATH search. *)
Definition python_host : Env :=
  {| os_name_nt := false;
     sys_executable := "/usr/bin/python3";
     lookup_executable := λ _ name,
       if bool_decide (name ∈ ["/usr/bin/python3"; ".venv/bin/pip"])
       then Some python_program else None;
     shell := table_shell [];
     json_loads := λ _, None;
     str_list := render_list;
     str_strip := ascii_strip |}.

(** A Windows host with npm, on which [npm ci] rejects the lockfile and
    [npm install] works. *)
Definition npm_windows_host : Env :=
  windows_host
    [ ("npm --version", exit_with 0 "");
      ("npm ci", exit_with 1 "npm ERR! package.json and package-lock.json are not in sync");
      ("npm install", exit_with 0 "") ].

Definition node_project : FS :=
  files [("package.json", File "{}"); ("package-lock.json", File "{}")].


(** A Windows host on which every Flutter command works. *)
Definition flutter_host : Env :=
  windows_host
    [ ("flutter --version", exit_with 0 "");
      ("flutter pub get", exit_with 0 "");
      ("dart format .", exit_with 0 "") ].


(** A Unix host whose only tool is npm. *)
Definition npm_host : Env := unix_host [("npm --version", exit_with 0 "")].

(** The character [c] occurs in [s]. *)
Fixpoint has_char (c : ascii) (s : string) : bool :=
  match s with
  | EmptyString => false
  | String a rest => Ascii.eqb a c || has_char c rest
  end.

Global Instance is_print_dec e : Decision (is_print e).
Proof. destruct e; [left; exact I | right; intros [] | right; intros []]. Defined.

(** The flags [parse_arguments] looks for. *)
Definition recognised_flags : list string :=
  ["--help"; "-h"; "--dry-run"; "-n"; "--verbose"; "-v"].

(** [m] leaves the file system as it is unless it calls [subprocess.run]. *)
Definition frames {A} (m : M A) : Prop :=
  ∀ fs, Forall (λ e, ¬ is_spawn e) (events (m fs)) → final_fs (m fs) = fs.

(** A Unix host without tools whose [json.loads] knows the documents of
    [documents]. *)
Definition documents_host (documents : list (string * json)) : Env :=
  {| os_name_nt := false;
     sys_executable := "/usr/bin/python3";
     lookup_executable := λ _ _, None;
     shell := table_shell [];
     json_loads := λ text, assoc text documents;
     str_list := render_list;
     str_strip := ascii_strip |}.

(** A failed [cargo fetch] with two lines of error output. *)
Definition cargo_failure : completed :=
  exit_with 101 "  warning: x
error: no matching package
".

(** The interpreter of a virtual environment in which ruff is installed
    and fails on the sources. *)
Definition ruff_failing_python : program :=
  λ args _ fs,
    match args with
    | [_; "-c"; _] => (exit_with 0 "", fs)
    | _ => (exit_with 1 "error: Failed to parse main.py", fs)
    end.

Definition ruff_failing_host : Env :=
  {| os_name_nt := false;
     sys_executable := "/usr/bin/python3";
     lookup_executable := λ _ name,
       if bool_decide (name = ".venv/bin/python") then Some ruff_failing_python
       else None;
     shell := table_shell [];
     json_loads := λ _, None;
     str_list := render_list;
     str_strip := ascii_strip |}.

(** A [package.json] with a format script, and what [json.loads] makes of
    it. *)
Definition package_json_text : string :=
  "{scripts: {format: prettier --write .}}".

Definition package_json_value : json :=
  JObj [("scripts", JObj [("format", JStr "prettier --write .")])].

Definition unix_config : RuntimeConfig :=
  {| dry_run := false; verbose := false; is_windows := false |}.
Definition windows_config : RuntimeConfig :=
  {| dry_run := false; verbose := false; is_windows := true |}.
Definition dry_config : RuntimeConfig :=
  {| dry_run := true; verbose := false; is_windows := false |}.


(** * Properties *)

(** ** The monad *)

Lemma bind_Ok {A B} (m : M A) (k : A → M B) fs a fs1 ev1 :
  m fs = (Ok a, fs1, ev1) →
  bind m k fs = (outcome (k a fs1), final_fs (k a fs1), ev1 ++ events (k a fs1)).
Proof.
  intros Hm. unfold bind. rewrite Hm.
  destruct (k a fs1) as [[r fs2] ev2]. reflexivity.
Qed.

Lemma bind_Raise {A B} (m : M A) (k : A → M B) fs e fs1 ev1 :
  m fs = (Raise e, fs1, ev1) → bind m k fs = (Raise e, fs1, ev1).
Proof. intros Hm. unfold bind. rewrite Hm. reflexivity. Qed.

Lemma run_eta {A} (x : result A * FS * list event) :
  x = (outcome x, final_fs x, events x).
Proof. destruct x as [[r fs] ev]. reflexivity. Qed.

Lemma print_run s fs : print s fs = (Ok (), fs, [EPrint s]).
Proof. reflexivity. Qed.

Lemma path_exists_run p fs : path_exists p fs = (Ok (present fs p), fs, []).
Proof. reflexivity. Qed.

Section Respects.
Context (P : event → Prop) (Q : exn → Prop).

Lemma respects_ret {A} (a : A) : respects P Q (ret a).
Proof. intros fs. split; [constructor | discriminate]. Qed.

Lemma respects_raise {A} e : Q e → respects P Q (@raise A e).
Proof.
  intros HQ fs. split; [constructor |].
  intros e' [= <-]. exact HQ.
Qed.

Lemma respects_bind {A B} (m : M A) (k : A → M B) :
  respects P Q m → (∀ a, respects P Q (k a)) → respects P Q (bind m k).
Proof.
  intros Hm Hk fs. specialize (Hm fs). unfold bind.
  destruct (m fs) as [[[a|e] fs1] ev1]; cbn in *.
  - specialize (Hk a fs1). destruct (k a fs1) as [[r fs2] ev2]; cbn in *.
    destruct Hm as [Hm _], Hk as [Hk1 Hk2].
    split; [apply Forall_app; auto | exact Hk2].
  - destruct Hm as [Hm1 Hm2]. split; [exact Hm1 |].
    intros e' [= <-]. apply Hm2. reflexivity.
Qed.

Lemma respects_try {A} (m : M A) h :
  respects P Q m → (∀ e k, h e = Some k → respects P Q k) →
  respects P Q (try_except m h).
Proof.
  intros Hm Hh fs. specialize (Hm fs). unfold try_except.
  destruct (m fs) as [[[a|e] fs1] ev1]; cbn in *; [exact Hm |].
  destruct (h e) as [k|] eqn:He; [| exact Hm].
  specialize (Hh e k He fs1). destruct (k fs1) as [[r fs2] ev2]; cbn in *.
  destruct Hm as [Hm _], Hh as [Hh1 Hh2].
  split; [apply Forall_app; auto | exact Hh2].
Qed.

Lemma respects_print s : P (EPrint s) → respects P Q (print s).
Proof. intros HP fs. split; [repeat constructor; exact HP | discriminate]. Qed.

Lemma respects_path_exists p : respects P Q (path_exists p).
Proof. intros fs. split; [constructor | discriminate]. Qed.

Lemma respects_read_text p :
  P (ERead p) → Q UnicodeDecodeError → (∀ k, Q (OSError k)) →
  respects P Q (read_text p).
Proof.
  intros HP Hu Ho fs. split; [repeat constructor; exact HP |].
  unfold read_text, outcome; cbn.
  intros e. destruct (fs !! p) as [[]|]; intros [= <-]; auto.
Qed.

Lemma respects_subprocess_run E cmd use_shell cwd :
  P (ESpawn cmd use_shell cwd) →
  (∀ rc err, Q (CalledProcessError rc err)) → Q (OSError ENOENT) → Q IndexError →
  respects P Q (subprocess_run E cmd use_shell cwd).
Proof.
  intros HP Hc Hn Hi fs. unfold subprocess_run.
  destruct (spawn E cmd use_shell cwd fs) as [o fs'] eqn:Hs.
  split; [repeat constructor; exact HP |].
  unfold outcome; cbn. intros e.
  destruct o as [[c|]|e0].
  - destruct (returncode c =? 0); intros [= <-]; auto.
  - intros [= <-]; auto.
  - unfold spawn in Hs. destruct use_shell.
    + destruct (shell E _ cwd fs); discriminate.
    + destruct (popen_args cmd) as [|a0 args]; [| destruct (lookup_executable E fs a0) as [p|];
        [destruct (p _ cwd fs) |]; discriminate].
      injection Hs as <- _. intros [= <-]; auto.
Qed.

Lemma respects_py_any (ms : list (M bool)) :
  Forall (respects P Q) ms → respects P Q (py_any ms).
Proof.
  induction 1 as [|m ms Hm _ IH]; cbn; [apply respects_ret |].
  apply respects_bind; [exact Hm |].
  intros []; [apply respects_ret | exact IH].
Qed.

Lemma respects_py_all (ms : list (M bool)) :
  Forall (respects P Q) ms → respects P Q (py_all ms).
Proof.
  induction 1 as [|m ms Hm _ IH]; cbn; [apply respects_ret |].
  apply respects_bind; [exact Hm |].
  intros []; [exact IH | apply respects_ret].
Qed.
End Respects.

(** ** What every strategy emits and raises

    Under a policy [P] that admits prints, reads and the two probes (and
    everything when the run is not a dry run) and a policy [Q] that admits
    every exception but [SystemExit]. *)

Lemma is_probe_has_command tool :
  is_probe (ESpawn (CmdStr (tool +:+ " --version")) true None).
Proof. left. exists tool. reflexivity. Qed.

Lemma is_probe_has_package python_exe package :
  is_probe (ESpawn (CmdList [python_exe; "-c"; "import " +:+ package]) false None).
Proof. right. exists python_exe, package. reflexivity. Qed.

Lemma not_exit_intro e :
  match e with SystemExit _ => False | _ => True end → not_exit e.
Proof. intros He code ->. exact He. Qed.

Section Strategies.
Context (E : Env) (config : RuntimeConfig).
Context (P : event → Prop) (Q : exn → Prop).
Hypothesis Pprint : ∀ s, P (EPrint s).
Hypothesis Pread : ∀ p, P (ERead p).
Hypothesis Pprobe : ∀ e, is_probe e → P e.
Hypothesis Pwet : dry_run config = false → ∀ e, P e.
Hypothesis Qother : ∀ e, not_exit e → Q e.

Local Ltac other := apply Qother, not_exit_intro; exact I.

Local Ltac step :=
  first
    [ apply respects_ret
    | apply respects_print; apply Pprint
    | apply respects_path_exists
    | apply respects_read_text; [apply Pread | other | intros; other]
    | apply respects_raise; other
    | apply respects_bind; [| intros ?]
    | match goal with
      | |- respects _ _ (if ?b then _ else _) => destruct b
      | |- respects _ _ (match ?x with _ => _ end) => destruct x
      end ].

Lemma respects_execute cmd cwd : respects P Q (execute E config cmd cwd).
Proof.
  unfold execute. destruct (dry_run config) eqn:Hdry.
  - repeat step.
  - apply respects_try.
    + repeat step.
      apply respects_subprocess_run; try (intros; other).
      apply Pwet; reflexivity.
    + intros e k He. destruct e as [| | [] | | | | |]; try discriminate;
        injection He as <-; unfold _handle_error; repeat step.
Qed.

Lemma respects_has_command tool : respects P Q (_has_command E tool).
Proof.
  unfold _has_command. apply respects_try.
  - repeat step.
    apply respects_subprocess_run; try (intros; other).
    apply Pprobe, is_probe_has_command.
  - intros e k He. destruct e as [| | [] | | | | |]; try discriminate;
      injection He as <-; repeat step.
Qed.

Lemma respects_has_python_package python_exe package :
  respects P Q (_has_python_package E python_exe package).
Proof.
  unfold _has_python_package. apply respects_try.
  - repeat step.
    apply respects_subprocess_run; try (intros; other).
    apply Pprobe, is_probe_has_package.
  - intros e k He. destruct e as [| | [] | | | | |]; try discriminate;
      injection He as <-; repeat step.
Qed.

Lemma respects_first_locked l : respects P Q (first_locked E l).
Proof.
  induction l as [|[lock_file pm] rest IH]; cbn; [apply respects_ret |].
  repeat first [apply respects_has_command | exact IH | step].
Qed.

Lemma respects_next_available l : respects P Q (next_available E l).
Proof.
  induction l as [|pm rest IH]; cbn; [apply respects_ret |].
  repeat first [apply respects_has_command | exact IH | step].
Qed.

Lemma respects_get_package_manager : respects P Q (get_package_manager E).
Proof.
  unfold get_package_manager.
  repeat first [apply respects_first_locked | apply respects_next_available | step].
Qed.

Lemma respects_any_exists l : respects P Q (py_any (map path_exists l)).
Proof.
  apply respects_py_any, Forall_map, Forall_forall.
  intros p _. apply respects_path_exists.
Qed.

Lemma respects_setup_python : respects P Q (setup_python E config).
Proof.
  unfold setup_python, _install_python_deps.
  repeat first [apply respects_execute | step].
Qed.

Lemma respects_setup_node : respects P Q (setup_node E config).
Proof.
  unfold setup_node.
  repeat first [apply respects_execute | apply respects_get_package_manager | step].
Qed.

Lemma respects_setup_rust : respects P Q (setup_rust E config).
Proof.
  unfold setup_rust.
  repeat first [apply respects_execute | apply respects_has_command | step].
Qed.

Lemma respects_has_build_runner : respects P Q (_has_build_runner config).
Proof.
  unfold _has_build_runner. apply respects_bind; [step |]. intros present.
  destruct (negb present || dry_run config); [step |].
  apply respects_try; [repeat step |].
  intros e k He. destruct e; try discriminate. injection He as <-. step.
Qed.

Lemma respects_setup_flutter : respects P Q (setup_flutter E config).
Proof.
  unfold setup_flutter.
  repeat first [apply respects_execute | apply respects_has_command
               | apply respects_has_build_runner | step].
Qed.

Lemma respects_setup_git_hooks : respects P Q (setup_git_hooks E config).
Proof.
  unfold setup_git_hooks, _get_python_executable.
  repeat first [apply respects_execute | step].
Qed.

Lemma respects_run_setups detected : respects P Q (run_setups E config detected).
Proof.
  unfold run_setups, applicable_setups. apply respects_py_all, Forall_forall.
  intros m Hm. apply list_elem_of_omap in Hm as (p & _ & Hp).
  unfold setup_methods in Hp. cbn in Hp.
  repeat case_bool_decide; simplify_eq;
    auto using respects_setup_python, respects_setup_node, respects_setup_rust,
      respects_setup_flutter, respects_setup_git_hooks.
Qed.

Lemma respects_first_formatter venv_python l :
  respects P Q (first_formatter E config venv_python l).
Proof.
  induction l as [|[name cmd] rest IH]; cbn; [apply respects_ret |].
  repeat first [apply respects_execute | apply respects_has_python_package
               | exact IH | step].
Qed.

Lemma respects_format_python : respects P Q (_format_python E config).
Proof.
  unfold _format_python.
  repeat first [apply respects_first_formatter | step].
Qed.

Lemma respects_has_npm_format_script : respects P Q (_has_npm_format_script E).
Proof.
  unfold _has_npm_format_script. apply respects_bind; [step |]. intros present.
  destruct (negb present); [step |].
  apply respects_try.
  - unfold loads, json_get, json_in. repeat step.
  - intros e k He. destruct e; try discriminate; injection He as <-; step.
Qed.

Lemma respects_format_node : respects P Q (_format_node E config).
Proof.
  unfold _format_node.
  repeat first [apply respects_execute | apply respects_has_npm_format_script
               | apply respects_any_exists | step].
Qed.

Lemma respects_format_flutter : respects P Q (_format_flutter E config).
Proof. unfold _format_flutter. repeat first [apply respects_execute | step]. Qed.

Lemma respects_format_all detected : respects P Q (format_all E config detected).
Proof.
  unfold format_all.
  repeat first [apply respects_format_python | apply respects_format_node
               | apply respects_format_flutter | step].
Qed.
End Strategies.

(** ** Running a bind *)

Lemma outcome_bind {A B} (m : M A) (k : A → M B) fs :
  outcome (bind m k fs)
  = match outcome (m fs) with
    | Ok a => outcome (k a (final_fs (m fs)))
    | Raise e => Raise e
    end.
Proof.
  unfold bind. destruct (m fs) as [[[a|e] fs1] ev1]; cbn; [| reflexivity].
  destruct (k a fs1) as [[r fs2] ev2]. reflexivity.
Qed.

Lemma final_fs_bind {A B} (m : M A) (k : A → M B) fs :
  final_fs (bind m k fs)
  = match outcome (m fs) with
    | Ok a => final_fs (k a (final_fs (m fs)))
    | Raise _ => final_fs (m fs)
    end.
Proof.
  unfold bind. destruct (m fs) as [[[a|e] fs1] ev1]; cbn; [| reflexivity].
  destruct (k a fs1) as [[r fs2] ev2]. reflexivity.
Qed.

Lemma events_bind {A B} (m : M A) (k : A → M B) fs :
  events (bind m k fs)
  = match outcome (m fs) with
    | Ok a => events (m fs) ++ events (k a (final_fs (m fs)))
    | Raise _ => events (m fs)
    end.
Proof.
  unfold bind. destruct (m fs) as [[[a|e] fs1] ev1]; cbn; [| reflexivity].
  destruct (k a fs1) as [[r fs2] ev2]. reflexivity.
Qed.

Lemma bind_ret_l {A B} (a : A) (k : A → M B) fs : bind (ret a) k fs = k a fs.
Proof. unfold bind, ret. destruct (k a fs) as [[r fs2] ev2]. reflexivity. Qed.

Lemma bind_print {B} s (k : unit → M B) fs :
  bind (print s) k fs
  = (outcome (k () fs), final_fs (k () fs), EPrint s :: events (k () fs)).
Proof. unfold bind, print. destruct (k () fs) as [[r fs2] ev2]. reflexivity. Qed.

Lemma bind_path_exists {B} p (k : bool → M B) fs :
  bind (path_exists p) k fs = k (present fs p) fs.
Proof.
  unfold bind, path_exists, present.
  destruct (k _ fs) as [[r fs2] ev2]. reflexivity.
Qed.

(** ** [subprocess.run] and [execute] *)

Lemma subprocess_run_events E cmd use_shell cwd fs :
  events (subprocess_run E cmd use_shell cwd fs) = [ESpawn cmd use_shell cwd].
Proof.
  unfold subprocess_run. destruct (spawn E cmd use_shell cwd fs). reflexivity.
Qed.

(** [subprocess.run(..., check=True)] raises [CalledProcessError] or
    [FileNotFoundError], and [IndexError] on an empty argument list only. *)
Lemma subprocess_run_raises E cmd use_shell cwd fs e :
  outcome (subprocess_run E cmd use_shell cwd fs) = Raise e →
  (∃ rc err, e = CalledProcessError rc err) ∨ e = OSError ENOENT ∨
  (e = IndexError ∧ use_shell = false ∧ popen_args cmd = []).
Proof.
  unfold subprocess_run, spawn. destruct use_shell.
  - destruct (shell E _ cwd fs) as [[c|] fs']; cbn.
    + destruct (returncode c =? 0); intros [= <-]; eauto.
    + intros [= <-]; eauto.
  - destruct (popen_args cmd) as [|a0 args]; cbn.
    + intros [= <-]; eauto.
    + destruct (lookup_executable E fs a0) as [p|]; cbn.
      * destruct (p _ cwd fs) as [c fs']; cbn.
        destruct (returncode c =? 0); intros [= <-]; eauto.
      * intros [= <-]; eauto.
Qed.

Section Execute.
Context (E : Env) (config : RuntimeConfig).

Lemma execute_dry cmd cwd fs :
  dry_run config = true →
  execute E config cmd cwd fs
  = (Ok true, fs, [EPrint ("  [DRY] " +:+ cmd_display cmd)]).
Proof. intros Hdry. unfold execute. rewrite Hdry. reflexivity. Qed.

(** Outside dry-run mode the events of [execute] are: the optional
    "Running" line, the call of [subprocess.run], then only prints. *)
Lemma execute_wet_shape cmd cwd fs :
  dry_run config = false →
  ∃ post,
    events (execute E config cmd cwd fs)
    = (if verbose config
       then [EPrint ("  Running: " +:+ cmd_display cmd)] else [])
      ++ ESpawn (_prepare_command config cmd) (is_windows config) cwd :: post
    ∧ Forall is_print post.
Proof.
  intros Hdry. unfold execute. rewrite Hdry. cbv zeta.
  destruct (verbose config) eqn:Hv;
    unfold try_except, bind, _handle_error, print, ret; rewrite ?Hv; cbn beta iota;
    pose proof (subprocess_run_events E (_prepare_command config cmd)
                  (is_windows config) cwd fs) as Hev;
    destruct (subprocess_run E (_prepare_command config cmd)
                (is_windows config) cwd fs) as [[[c|e] fs'] ev];
    cbn in Hev; subst ev.
  - destruct (nonempty (str_strip E (stdout c)));
      cbn; eexists; (split; [reflexivity | repeat constructor]).
  - destruct e as [| rc err | [] | | | | |]; try destruct (nonempty err);
      cbn; eexists; (split; [reflexivity | repeat constructor]).
  - cbn; eexists; (split; [reflexivity | repeat constructor]).
  - destruct e as [| rc err | [] | | | | |]; try destruct (nonempty err);
      cbn; eexists; (split; [reflexivity | repeat constructor]).
Qed.

Lemma execute_mark cmd cwd fs :
  exec_mark config cmd cwd ∈ events (execute E config cmd cwd fs).
Proof.
  unfold exec_mark. destruct (dry_run config) eqn:Hdry.
  - rewrite execute_dry by done. cbn. apply list_elem_of_here.
  - destruct (execute_wet_shape cmd cwd fs Hdry) as (post & -> & _).
    apply elem_of_app. right. apply list_elem_of_here.
Qed.

(** The only call of [subprocess.run] in [execute] is the one for its
    command, and there is none in dry-run mode. *)
Lemma execute_spawns cmd cwd fs e :
  e ∈ events (execute E config cmd cwd fs) → is_spawn e →
  dry_run config = false ∧ e = exec_mark config cmd cwd.
Proof.
  unfold exec_mark. destruct (dry_run config) eqn:Hdry.
  - rewrite execute_dry by done. cbn.
    intros ->%list_elem_of_singleton [].
  - destruct (execute_wet_shape cmd cwd fs Hdry) as (post & -> & Hpost).
    intros He Hs. split; [reflexivity |].
    apply elem_of_app in He as [He | He].
    + destruct (verbose config); [| by apply elem_of_nil in He].
      apply list_elem_of_singleton in He as ->. destruct Hs.
    + apply elem_of_cons in He as [-> | He]; [reflexivity |].
      rewrite Forall_forall in Hpost. specialize (Hpost e He).
      destruct e; done.
Qed.

(** [execute] fails only on an empty argument list. *)
Lemma execute_total cmd cwd fs :
  cmd ≠ CmdList [] →
  ∃ b, outcome (execute E config cmd cwd fs) = Ok b.
Proof.
  intros Hcmd. unfold execute. destruct (dry_run config); [by eexists |].
  cbv zeta.
  assert (popen_args (_prepare_command config cmd) ≠ []) as Hargs.
  { destruct cmd as [s | [|a0 args]]; cbn; [done.. |].
    destruct (is_windows config); done. }
  destruct (verbose config) eqn:Hv;
    unfold try_except, bind, _handle_error, print, ret; rewrite ?Hv; cbn beta iota;
    pose proof (subprocess_run_raises E (_prepare_command config cmd)
                  (is_windows config) cwd fs) as Hraise;
    destruct (subprocess_run E (_prepare_command config cmd)
                (is_windows config) cwd fs) as [[[c|e] fs'] ev];
    cbn in Hraise.
  - destruct (nonempty (str_strip E (stdout c))); cbn; by eexists.
  - destruct (Hraise e eq_refl) as [(rc & err & ->) | [-> | (-> & _ & Hnil)]];
      [destruct (nonempty err) | | done]; cbn; by eexists.
  - cbn; by eexists.
  - destruct (Hraise e eq_refl) as [(rc & err & ->) | [-> | (-> & _ & Hnil)]];
      [destruct (nonempty err) | | done]; cbn; by eexists.
Qed.
End Execute.

(** ** C3: dry-run *)

(** C3. In dry-run mode [execute], for every command (string or list) and
    every working directory, prints the command, does not call
    [subprocess.run] (the printed line is its only event, and the file
    system is as before) and returns true. *)
Theorem execute_dry_run (E : Env) (config : RuntimeConfig) (cmd : command)
    (cwd : option string) (fs : FS) :
  dry_run config = true →
  execute E config cmd cwd fs
  = (Ok true, fs, [EPrint ("  [DRY] " +:+ cmd_display cmd)]).
Proof. apply execute_dry. Qed.

Lemma execute_dry_run_witness :
  execute (unix_host []) dry_config (CmdList ["cargo"; "fetch"]) (Some "/tmp") ∅
  = (Ok true, ∅, [EPrint "  [DRY] cargo fetch"]).
Proof. apply (execute_dry_run (unix_host []) dry_config); reflexivity. Defined.

(** ** C10: string commands on a Unix host *)

(** C10. Outside dry-run mode and off Windows, [execute] hands a string
    command to [subprocess.run] unchanged and with the shell disabled, so
    the whole string is the executable that is looked up.  On a host whose
    executables have no blank in their names, every command with a blank
    therefore ends in the command-not-found branch: nothing runs, the
    message is printed and [execute] returns false.  The string commands
    of the strategies all contain a blank. *)
Theorem string_command_not_found (E : Env) (config : RuntimeConfig) (s : string)
    (cwd : option string) (fs : FS) :
  dry_run config = false → is_windows config = false →
  executables_without_blanks E fs → contains " " s = true →
  _prepare_command config (CmdStr s) = CmdStr s ∧
  popen_args (CmdStr s) = [s] ∧
  execute E config (CmdStr s) cwd fs
  = (Ok false, fs,
     (if verbose config then [EPrint ("  Running: " +:+ s)] else [])
     ++ [ESpawn (CmdStr s) false cwd; EPrint ("  ❌ Command not found: " +:+ s)]) ∧
  Forall (λ c, contains " " c = true) strategy_string_commands.
Proof.
  intros Hdry Hwin Hexe Hblank. repeat split.
  - assert (lookup_executable E fs s = None) as Hnone.
    { destruct (lookup_executable E fs s) as [p|] eqn:Hp; [| reflexivity].
      assert (contains " " s = false) by (apply Hexe; rewrite Hp; eauto).
      congruence. }
    unfold execute. rewrite Hdry, Hwin. cbv zeta.
    unfold try_except, bind, subprocess_run, spawn, print, ret.
    destruct (verbose config); cbn; rewrite Hnone; reflexivity.
  - repeat constructor.
Qed.

Lemma string_command_not_found_witness :
  execute (unix_host []) unix_config (CmdStr "npm ci") None ∅
  = (Ok false, ∅,
     [ESpawn (CmdStr "npm ci") false None; EPrint "  ❌ Command not found: npm ci"]).
Proof.
  refine (proj1 (proj2 (proj2
    (string_command_not_found (unix_host []) unix_config "npm ci" None ∅ _ _ _ _))));
    try reflexivity.
  intros name [p Hp]. discriminate Hp.
Defined.

(** ** Argument parsing and detection *)

Lemma help_requested_decide argv :
  bool_decide ("--help" ∈ argv) || bool_decide ("-h" ∈ argv) = true
  ↔ help_requested argv.
Proof.
  unfold help_requested. rewrite orb_true_iff, !bool_decide_eq_true. reflexivity.
Qed.

Lemma parse_arguments_help E argv fs :
  help_requested argv →
  parse_arguments E argv fs = (Raise (SystemExit 0), fs, help_lines).
Proof.
  intros Hhelp%help_requested_decide. unfold parse_arguments. rewrite Hhelp.
  reflexivity.
Qed.

Lemma parse_arguments_run E argv fs :
  ¬ help_requested argv →
  parse_arguments E argv fs = (Ok (config_of E argv), fs, []).
Proof.
  intros Hhelp. unfold parse_arguments.
  destruct (bool_decide _ || bool_decide _) eqn:Hb; [| reflexivity].
  apply help_requested_decide in Hb. contradiction.
Qed.

Lemma any_exists_run files fs :
  py_any (map path_exists files) fs = (Ok (existsb (present fs) files), fs, []).
Proof.
  induction files as [|f files IH]; [reflexivity |].
  cbn [map py_any existsb]. rewrite bind_path_exists.
  destruct (present fs f); [reflexivity | exact IH].
Qed.

Lemma detect_in_run table fs :
  detect_in table fs
  = (Ok (filter (λ entry, existsb (present fs) entry.2) table).*1, fs, []).
Proof.
  induction table as [|[lang markers] table IH]; [reflexivity |].
  cbn [detect_in]. rewrite (bind_Ok _ _ _ _ _ _ (any_exists_run markers fs)).
  rewrite (bind_Ok _ _ _ _ _ _ IH). rewrite filter_cons. cbn.
  destruct (existsb (present fs) markers); reflexivity.
Qed.

Lemma detect_languages_run fs :
  detect_languages fs = (Ok (detected_in fs), fs, []).
Proof. apply detect_in_run. Qed.

Lemma respects_detect_languages P Q : respects P Q detect_languages.
Proof.
  intros fs. rewrite detect_languages_run. split; [constructor | discriminate].
Qed.

(** ** C4: what a dry run still spawns *)

Lemma main_events_policy E argv fs (P : event → Prop) :
  (∀ s, P (EPrint s)) → (∀ p, P (ERead p)) → (∀ e, is_probe e → P e) →
  (dry_run (config_of E argv) = false → ∀ e, P e) →
  Forall P (events (main E argv fs)).
Proof.
  intros Pprint Pread Pprobe Pwet. unfold main. rewrite events_bind.
  destruct (decide (help_requested argv)) as [Hhelp | Hhelp].
  { rewrite parse_arguments_help by done. cbn. repeat constructor; apply Pprint. }
  rewrite parse_arguments_run by done. cbn [outcome events final_fs fst snd app].
  set (config := config_of E argv).
  assert (∀ e, not_exit e → True) as Qany by done.
  pose proof (respects_run_setups E config P (λ _, True) Pprint Pread Pprobe Pwet Qany)
    as Hsetups.
  pose proof (respects_format_all E config P (λ _, True) Pprint Pread Pprobe Pwet Qany)
    as Hformat.
  match goal with
  | |- Forall P (events (?m fs)) =>
      enough (respects P (λ _, True) m) as Hr by exact (proj1 (Hr fs))
  end.
  apply respects_bind; [apply respects_print, Pprint |]. intros _.
  apply respects_bind; [apply respects_detect_languages |]. intros detected.
  destruct detected as [|lang detected]; [apply respects_print, Pprint |].
  apply respects_bind; [apply respects_print, Pprint |]. intros _.
  apply respects_bind; [apply Hsetups |]. intros success.
  apply respects_bind; [apply Hformat |]. intros formatted.
  destruct (success && formatted).
  - apply respects_bind; [apply respects_print, Pprint |]. intros _.
    destruct (bool_decide _); [apply respects_print, Pprint | apply respects_ret].
  - apply respects_bind; [apply respects_print, Pprint |]. intros _.
    apply respects_bind.
    + destruct (negb _); [apply respects_print, Pprint | apply respects_ret].
    + intros _. apply respects_raise. exact I.
Qed.

Lemma dry_run_requested_config E argv :
  dry_run_requested argv → dry_run (config_of E argv) = true.
Proof.
  unfold dry_run_requested, config_of. cbn.
  rewrite orb_true_iff, !bool_decide_eq_true. done.
Qed.

(** C4, as the code has it. In a dry run the only calls of
    [subprocess.run] are the probes: the capability probe
    [<tool> --version] of [_has_command] and the package probe
    [<python> -c "import <package>"] of [_has_python_package], which run as
    in any other run; no command handed to [execute] is spawned. *)
Theorem dry_run_spawns_only_probes (E : Env) (argv : list string) (fs : FS)
    (e : event) :
  dry_run_requested argv →
  e ∈ events (main E argv fs) → is_spawn e → is_probe e.
Proof.
  intros Hdry. revert e. apply (proj1 (Forall_forall spawns_are_probes _)).
  apply (main_events_policy E argv fs spawns_are_probes).
  - intros s [].
  - intros p [].
  - intros e He _. exact He.
  - rewrite dry_run_requested_config by done. discriminate.
Qed.

Lemma dry_run_spawns_only_probes_witness :
  is_probe (ESpawn (CmdStr "npm --version") true None).
Proof.
  apply (dry_run_spawns_only_probes (unix_host []) ["autofix.py"; "-n"]
           (files [("package.json", File "{}")])).
  - right. apply (bool_decide_unpack _). vm_compute. exact I.
  - apply (bool_decide_unpack _). vm_compute. exact I.
  - exact I.
Defined.

(** C4, as the specification states it, fails: a dry run in a directory with a
    [package.json] calls [subprocess.run] for [npm --version] (and for the
    other package managers), through the shell. *)
Lemma dry_run_still_spawns :
  let run := main (unix_host []) ["autofix.py"; "--dry-run"]
               (files [("package.json", File "{}")]) in
  dry_run (config_of (unix_host []) ["autofix.py"; "--dry-run"]) = true ∧
  ESpawn (CmdStr "npm --version") true None ∈ events run ∧
  ¬ Forall (λ e, ¬ is_spawn e) (events run).
Proof.
  cbv zeta.
  assert (ESpawn (CmdStr "npm --version") true None
          ∈ events (main (unix_host []) ["autofix.py"; "--dry-run"]
                      (files [("package.json", File "{}")]))) as Hin.
  { apply (bool_decide_unpack _). vm_compute. exact I. }
  split; [reflexivity |]. split; [exact Hin |].
  intros Hall. rewrite Forall_forall in Hall. exact (Hall _ Hin I).
Qed.

(** ** C1: the setup phase *)

Lemma py_all_app_stop (ms1 ms2 : list (M bool)) fs :
  outcome (py_all ms1 fs) ≠ Ok true → py_all (ms1 ++ ms2) fs = py_all ms1 fs.
Proof.
  revert fs. induction ms1 as [|m ms1 IH]; intros fs; [done |].
  cbn [app py_all]. unfold bind.
  destruct (m fs) as [[[[]|e] fs1] ev1]; [| reflexivity..].
  intros Hstop. rewrite IH; [reflexivity |].
  intros Htrue. apply Hstop.
  destruct (py_all ms1 fs1) as [[r fs2] ev2]. exact Htrue.
Qed.

Lemma bind_ret_r {A} (m : M A) fs : bind m ret fs = m fs.
Proof.
  unfold bind, ret. destruct (m fs) as [[[a|e] fs1] ev1]; [| reflexivity].
  by rewrite app_nil_r.
Qed.

Lemma py_all_true_spec (ms : list (M bool)) fs :
  outcome (py_all ms fs) = Ok true → spec_run_all ms fs = py_all ms fs.
Proof.
  revert fs. induction ms as [|m ms IH]; intros fs; [reflexivity |].
  cbn [py_all spec_run_all].
  destruct (m fs) as [[[[]|e] fs1] ev1] eqn:Hm.
  - rewrite !(bind_Ok _ _ _ _ _ _ Hm). cbn [outcome fst].
    intros Hrest.
    change (λ bs : bool, ret (true && bs)) with (@ret bool).
    by rewrite bind_ret_r, IH.
  - rewrite !(bind_Ok _ _ _ _ _ _ Hm). discriminate.
  - rewrite !(bind_Raise _ _ _ _ _ _ Hm). discriminate.
Qed.

Lemma spec_run_all_true (ms : list (M bool)) fs :
  outcome (spec_run_all ms fs) = Ok true → outcome (py_all ms fs) = Ok true.
Proof.
  revert fs. induction ms as [|m ms IH]; intros fs; [done |].
  cbn [py_all spec_run_all]. rewrite !outcome_bind.
  destruct (outcome (m fs)) as [b|e]; [| done].
  rewrite outcome_bind.
  destruct (outcome (spec_run_all ms (final_fs (m fs)))) as [bs|e] eqn:Hall;
    [| done].
  cbn. destruct b, bs; try discriminate. intros _. by apply IH.
Qed.

(** X23. [all] over the generator stops at the first setup strategy that
    returns failure: once the strategies of a prefix of the detected
    ecosystems yield false, the run over the whole list is the run over
    that prefix (same result, same file system, same events), so no later
    setup strategy is invoked.  The setup phase returns true exactly when
    running every applicable strategy unconditionally and and-ing the
    results returns true, and then the two runs coincide. *)
Theorem run_setups_stops_at_first_failure (E : Env) (config : RuntimeConfig)
    (pre post : list string) (fs : FS) :
  (outcome (run_setups E config pre fs) = Ok false →
   run_setups E config (pre ++ post) fs = run_setups E config pre fs) ∧
  (outcome (run_setups E config pre fs) = Ok true
   ↔ outcome (spec_run_all (applicable_setups E config pre) fs) = Ok true) ∧
  (outcome (run_setups E config pre fs) = Ok true →
   run_setups E config pre fs = spec_run_all (applicable_setups E config pre) fs).
Proof.
  unfold run_setups. repeat split.
  - intros Hfalse. unfold applicable_setups in *. rewrite omap_app.
    apply py_all_app_stop. rewrite Hfalse. discriminate.
  - intros Htrue. by rewrite py_all_true_spec.
  - apply spec_run_all_true.
  - intros Htrue. by rewrite py_all_true_spec.
Qed.

Lemma run_setups_stops_at_first_failure_witness :
  let fs := files [("package.json", File "{}"); ("Cargo.toml", File "")] in
  run_setups (unix_host []) unix_config (["node"] ++ ["rust"]) fs
  = run_setups (unix_host []) unix_config ["node"] fs.
Proof.
  cbv zeta.
  apply (run_setups_stops_at_first_failure (unix_host []) unix_config
           ["node"] ["rust"]).
  vm_compute. reflexivity.
Defined.

(** C1. The setup phase does not invoke every applicable setup strategy:
    with a [package.json] and a [Cargo.toml] on a host without any package
    manager, Node and Rust are detected, Node setup returns false and Rust
    setup, though applicable, is never invoked: its first statement, the
    banner, is not among the events of the setup phase, while the
    unconditional run of every applicable strategy that the specification
    describes prints it (and returns false as well).  The whole run shows
    the same: Rust setup is skipped, yet the formatting phase that follows
    still runs (it reads [package.json] for the Node formatter), and the
    status is 1. *)
Lemma later_setup_not_invoked :
  let fs := files [("package.json", File "{}"); ("Cargo.toml", File "")] in
  let run := run_setups (unix_host []) unix_config (detected_in fs) fs in
  let all := spec_run_all
               (applicable_setups (unix_host []) unix_config (detected_in fs)) fs in
  detected_in fs = ["node"; "rust"] ∧
  outcome run = Ok false ∧
  (EPrint "🦀 Rust setup..." ∉ events run) ∧
  EPrint "🦀 Rust setup..." ∈ events all ∧
  outcome all = Ok false ∧
  let whole := main (unix_host []) ["autofix.py"] fs in
  (EPrint "🦀 Rust setup..." ∉ events whole) ∧
  ERead "package.json" ∈ events whole ∧
  exit_status (outcome whole) = 1.
Proof.
  cbv zeta. split; [vm_compute; reflexivity |].
  split; [vm_compute; reflexivity |].
  split; [apply (bool_decide_unpack _); vm_compute; exact I |].
  split; [apply (bool_decide_unpack _); vm_compute; exact I |].
  split; [vm_compute; reflexivity |].
  split; [apply (bool_decide_unpack _); vm_compute; exact I |].
  split; [apply (bool_decide_unpack _); vm_compute; exact I |].
  vm_compute; reflexivity.
Qed.

(** ** C9: exit status *)

Lemma main_no_projects E argv fs :
  ¬ help_requested argv → detected_in fs = [] →
  main E argv fs
  = (Ok (), fs,
     [EPrint "🔍 Detecting projects..."; EPrint "No supported projects found."]).
Proof.
  intros Hhelp Hnone. unfold main.
  rewrite (bind_Ok _ _ _ _ _ _ (parse_arguments_run E argv fs Hhelp)).
  rewrite bind_print, (bind_Ok _ _ _ _ _ _ (detect_languages_run fs)), Hnone.
  reflexivity.
Qed.

Lemma main_outcome E argv fs :
  ¬ help_requested argv → detected_in fs ≠ [] →
  let config := config_of E argv in
  let setups := run_setups E config (detected_in fs) fs in
  outcome (main E argv fs)
  = match outcome setups with
    | Ok success =>
        match outcome (format_all E config (detected_in fs) (final_fs setups)) with
        | Ok formatted =>
            if success && formatted then Ok () else Raise (SystemExit 1)
        | Raise e => Raise e
        end
    | Raise e => Raise e
    end.
Proof.
  intros Hhelp Hsome. cbv zeta. unfold main.
  rewrite (bind_Ok _ _ _ _ _ _ (parse_arguments_run E argv fs Hhelp)).
  rewrite bind_print, (bind_Ok _ _ _ _ _ _ (detect_languages_run fs)).
  cbn [outcome fst].
  destruct (detected_in fs) as [|lang rest] eqn:Hd; [done |].
  rewrite bind_print. cbn [outcome fst]. rewrite outcome_bind.
  destruct (outcome (run_setups _ _ _ fs)) as [success|e]; [| reflexivity].
  rewrite outcome_bind.
  destruct (outcome (format_all _ _ _ _)) as [formatted|e]; [| reflexivity].
  destruct (success && formatted).
  - rewrite bind_print. cbn [outcome fst].
    destruct (bool_decide _); reflexivity.
  - rewrite bind_print. cbn [outcome fst].
    destruct (verbose _); reflexivity.
Qed.

Lemma exit_status_other e : not_exit e → exit_status (Raise e) = 1.
Proof. intros He. destruct e; try reflexivity. by destruct (He code). Qed.

Lemma assoc_setup_methods E config ecosystem :
  assoc ecosystem (setup_methods E config) = setup_strategy E config ecosystem.
Proof.
  unfold setup_methods, setup_strategy. cbn [assoc].
  repeat case_bool_decide; subst; try done.
Qed.

Lemma applicable_setups_strategies E config detected :
  applicable_setups E config detected = omap (setup_strategy E config) detected.
Proof.
  unfold applicable_setups. induction detected as [|ecosystem rest IH]; [done |].
  change (omap ?f (?x :: ?l))
    with (match f x with Some y => y :: omap f l | None => omap f l end).
  cbn beta. by rewrite assoc_setup_methods, IH.
Qed.

(** A run of [all] over a list of strategies followed by further
    strategies: they all report success exactly when the run of [all]
    returns true and the further ones all report success after it. *)
Lemma all_report_success_app (ms ns : list (M bool)) fs :
  all_report_success (ms ++ ns) fs
  = match outcome (py_all ms fs) with
    | Ok true => all_report_success ns (final_fs (py_all ms fs))
    | _ => false
    end.
Proof.
  revert fs. induction ms as [|m ms IH]; intros fs; [reflexivity |].
  cbn [app all_report_success py_all].
  rewrite outcome_bind, final_fs_bind.
  destruct (outcome (m fs)) as [[]|e]; [apply IH | reflexivity | reflexivity].
Qed.

(** Three guarded strategies whose results are and-ed, none skipped: the
    conjunction is true exactly when each strategy whose guard holds
    reports success. *)
Lemma guarded_conjunction_reports (gp gn gf : bool) (mp mn mf : M bool) fs :
  all_report_success
    ((if gp then [mp] else []) ++ (if gn then [mn] else [])
     ++ (if gf then [mf] else [])) fs
  = match outcome
            ((success <- (if gp then ok <- mp ;; ret (true && ok) else ret true) ;;
              success <- (if gn then ok <- mn ;; ret (success && ok)
                          else ret success) ;;
              success <- (if gf then ok <- mf ;; ret (success && ok)
                          else ret success) ;;
              ret success) fs) with
    | Ok true => true
    | _ => false
    end.
Proof.
  destruct gp, gn, gf; cbn [app all_report_success];
    unfold bind, ret, outcome, final_fs;
    repeat (cbn;
            match goal with
            | |- context [mp ?f] => destruct (mp f) as [[[[]|?] ?] ?]
            | |- context [mn ?f] => destruct (mn f) as [[[[]|?] ?] ?]
            | |- context [mf ?f] => destruct (mf f) as [[[[]|?] ?] ?]
            end);
    reflexivity.
Qed.

Lemma format_strategies E config :
  format_strategy E config "python" = Some (_format_python E config) ∧
  format_strategy E config "node" = Some (_format_node E config) ∧
  format_strategy E config "flutter" = Some (_format_flutter E config).
Proof. repeat split. Qed.

(** The formatting phase returns true exactly when the formatting strategy
    of every detected ecosystem that has one reports success. *)
Lemma format_all_reports E config detected fs :
  all_report_success
    (omap (format_strategy E config)
       (filter (λ ecosystem, ecosystem ∈ detected) formatted_ecosystems)) fs
  = match outcome (format_all E config detected fs) with
    | Ok true => true
    | _ => false
    end.
Proof.
  unfold format_all. cbv zeta.
  rewrite <- (guarded_conjunction_reports
                (bool_decide ("python" ∈ detected))
                (bool_decide ("node" ∈ detected))
                (bool_decide ("flutter" ∈ detected))
                (_format_python E config) (_format_node E config)
                (_format_flutter E config) fs).
  f_equal. unfold formatted_ecosystems.
  destruct (format_strategies E config) as (Hp & Hn & Hf).
  rewrite !filter_cons, filter_nil.
  repeat case_bool_decide; repeat case_decide; try contradiction;
    repeat (change (omap ?f (?x :: ?l))
              with (match f x with Some y => y :: omap f l | None => omap f l end));
    rewrite ?Hp, ?Hn, ?Hf; reflexivity.
Qed.

(** C9. With [--help] or [-h] the run prints the usage text and exits
    with status 0 before anything else happens (no file is consulted, no
    process started).  Without markers in the working directory the run
    prints that no supported project was found, invokes no strategy and
    ends with status 0.  Otherwise the status is 0 when every applicable
    strategy reports success (the setup strategy of each detected
    ecosystem, then the formatting strategy of each detected ecosystem
    that has one, each started where the one before left the working
    directory) and 1 in every other case: one of these strategies
    returned false, or raised. *)
Theorem exit_codes (E : Env) (argv : list string) (fs : FS) :
  (help_requested argv →
   main E argv fs = (Raise (SystemExit 0), fs, help_lines) ∧
   exit_status (outcome (main E argv fs)) = 0) ∧
  (¬ help_requested argv → detected_in fs = [] →
   main E argv fs
   = (Ok (), fs,
      [EPrint "🔍 Detecting projects..."; EPrint "No supported projects found."]) ∧
   exit_status (outcome (main E argv fs)) = 0) ∧
  (¬ help_requested argv → detected_in fs ≠ [] →
   exit_status (outcome (main E argv fs))
   = if all_report_success
          (applicable_strategies E (config_of E argv) (detected_in fs)) fs
     then 0 else 1).
Proof.
  split; [| split].
  - intros Hhelp.
    assert (main E argv fs = (Raise (SystemExit 0), fs, help_lines)) as Hmain.
    { unfold main.
      by rewrite (bind_Raise _ _ _ _ _ _ (parse_arguments_help E argv fs Hhelp)). }
    split; [exact Hmain | by rewrite Hmain].
  - intros Hhelp Hnone. rewrite main_no_projects by done. done.
  - intros Hhelp Hsome. rewrite main_outcome by done. cbv zeta.
    set (config := config_of E argv).
    unfold applicable_strategies.
    rewrite <- applicable_setups_strategies, all_report_success_app.
    fold (run_setups E config (detected_in fs)).
    assert (∀ e, not_exit e → not_exit e) as Qid by done.
    pose proof (respects_run_setups E config (λ _, True) not_exit
                  (λ _, I) (λ _, I) (λ _ _, I) (λ _ _, I) Qid (detected_in fs) fs)
      as [_ Hsetups].
    destruct (outcome (run_setups E config (detected_in fs) fs)) as [[]|e];
      [| | by apply exit_status_other, Hsetups].
    + rewrite format_all_reports.
      pose proof (respects_format_all E config (λ _, True) not_exit
                    (λ _, I) (λ _, I) (λ _ _, I) (λ _ _, I) Qid (detected_in fs)
                    (final_fs (run_setups E config (detected_in fs) fs)))
        as [_ Hformat].
      destruct (outcome (format_all _ _ _ _)) as [[]|e];
        [reflexivity | reflexivity | by apply exit_status_other, Hformat].
    + pose proof (respects_format_all E config (λ _, True) not_exit
                    (λ _, I) (λ _, I) (λ _ _, I) (λ _ _, I) Qid (detected_in fs)
                    (final_fs (run_setups E config (detected_in fs) fs)))
        as [_ Hformat].
      destruct (outcome (format_all _ _ _ _)) as [[]|e];
        [reflexivity | reflexivity | by apply exit_status_other, Hformat].
Qed.

Lemma exit_codes_witness :
  exit_status (outcome (main (unix_host []) ["autofix.py"; "--help"] ∅)) = 0 ∧
  exit_status (outcome (main (unix_host []) ["autofix.py"] ∅)) = 0 ∧
  exit_status (outcome (main (unix_host []) ["autofix.py"]
                          (files [("package.json", File "{}")]))) = 1 ∧
  exit_status (outcome (main npm_host ["autofix.py"; "-n"]
                          (files [("package.json", File "{}")]))) = 0 ∧
  (let fs := files [(".venv", Dir); (".venv/bin/python", File "");
                    ("setup.py", File "")] in
   outcome (run_setups ruff_failing_host unix_config (detected_in fs) fs) = Ok true ∧
   exit_status (outcome (main ruff_failing_host ["autofix.py"] fs)) = 1).
Proof.
  assert (¬ help_requested ["autofix.py"]) as Hplain.
  { unfold help_requested. apply (bool_decide_unpack _). vm_compute. exact I. }
  assert (¬ help_requested ["autofix.py"; "-n"]) as Hdry.
  { unfold help_requested. apply (bool_decide_unpack _). vm_compute. exact I. }
  split; [| split; [| split; [| split]]].
  - apply (proj1 (exit_codes (unix_host []) ["autofix.py"; "--help"] ∅)).
    left. apply (bool_decide_unpack _). vm_compute. exact I.
  - apply (proj1 (proj2 (exit_codes (unix_host []) ["autofix.py"] ∅)));
      [exact Hplain | reflexivity].
  - rewrite (proj2 (proj2 (exit_codes (unix_host []) ["autofix.py"]
                             (files [("package.json", File "{}")]))));
      [vm_compute; reflexivity | exact Hplain | vm_compute; discriminate].
  - rewrite (proj2 (proj2 (exit_codes npm_host ["autofix.py"; "-n"]
                             (files [("package.json", File "{}")]))));
      [vm_compute; reflexivity | exact Hdry | vm_compute; discriminate].
  - cbv zeta. split; [vm_compute; reflexivity |].
    rewrite (proj2 (proj2 (exit_codes ruff_failing_host ["autofix.py"]
                             (files [(".venv", Dir); (".venv/bin/python", File "");
                                     ("setup.py", File "")]))));
      [vm_compute; reflexivity | exact Hplain | vm_compute; discriminate].
Defined.

(** ** C5: choice of the Node package manager *)

Lemma has_command_ok E tool fs :
  outcome (_has_command E tool fs) = Ok (probe E fs tool).
Proof.
  unfold probe.
  enough (∃ b, outcome (_has_command E tool fs) = Ok b) as [b ->] by done.
  unfold _has_command, try_except, bind, ret.
  pose proof (subprocess_run_raises E (CmdStr (tool +:+ " --version")) true None fs)
    as Hraise.
  destruct (subprocess_run E _ true None fs) as [[[c|e] fs'] ev]; [by eexists |].
  destruct (Hraise e eq_refl) as [(rc & err & ->) | [-> | (_ & [=] & _)]];
    by eexists.
Qed.

Lemma next_available_run E l fs :
  (∀ tool, tool ∈ l → final_fs (_has_command E tool fs) = fs) →
  outcome (next_available E l fs) = Ok (find (probe E fs) l) ∧
  final_fs (next_available E l fs) = fs.
Proof.
  induction l as [|tool l IH]; intros Hstable; [done |].
  cbn [next_available find]. rewrite outcome_bind, final_fs_bind, has_command_ok.
  rewrite (Hstable tool) by apply list_elem_of_here.
  destruct (probe E fs tool); [done |].
  apply IH. intros t Ht. apply Hstable. by apply list_elem_of_further.
Qed.

Lemma first_locked_run E l fs :
  (∀ entry, entry ∈ l → final_fs (_has_command E entry.2 fs) = fs) →
  outcome (first_locked E l fs)
  = Ok (snd <$> find (λ entry, present fs entry.1 && probe E fs entry.2) l) ∧
  final_fs (first_locked E l fs) = fs.
Proof.
  induction l as [|[lock_file pm] l IH]; intros Hstable; [done |].
  cbn [first_locked find fst snd]. rewrite bind_path_exists.
  assert (∀ entry, entry ∈ l → final_fs (_has_command E entry.2 fs) = fs) as Hrest.
  { intros entry Hentry. apply Hstable. by apply list_elem_of_further. }
  destruct (present fs lock_file); cbn [andb].
  - rewrite outcome_bind, final_fs_bind, has_command_ok.
    pose proof (Hstable (lock_file, pm) (list_elem_of_here _ _)) as Hpm.
    cbn [snd] in Hpm. rewrite Hpm.
    destruct (probe E fs pm); [done | by apply IH].
  - rewrite bind_ret_l. by apply IH.
Qed.

(** C5. When the version probes leave the working directory as it is,
    [get_package_manager] answers by the first rule that matches, in this
    order: pnpm if [pnpm-lock.yaml] exists and the pnpm probe succeeds;
    yarn if [yarn.lock] exists and the yarn probe succeeds; npm if
    [package-lock.json] exists and the npm probe succeeds; then the first
    of npm, pnpm, yarn whose probe succeeds; else none.  In particular,
    whatever the probes do to the directory, [pnpm-lock.yaml] with a
    working pnpm gives pnpm, also next to a [package-lock.json]. *)
Theorem package_manager_order (E : Env) (fs : FS) :
  (probes_read_only E fs →
   outcome (get_package_manager E fs)
   = Ok (spec_select_package_manager (present fs) (probe E fs))) ∧
  (present fs "pnpm-lock.yaml" = true → probe E fs "pnpm" = true →
   outcome (get_package_manager E fs) = Ok (Some "pnpm")).
Proof.
  split.
  - intros Hstable. unfold get_package_manager.
    destruct (first_locked_run E lock_files fs) as [Hlocked Hfs].
    { intros [lock_file pm] Hentry. apply Hstable.
      apply list_elem_of_In in Hentry.
      destruct Hentry as [[= <- <-] | [[= <- <-] | [[= <- <-] | []]]];
        cbn [snd]; repeat constructor. }
    destruct (next_available_run E ["npm"; "pnpm"; "yarn"] fs) as [Hnext _].
    { intros tool Htool. apply Hstable.
      apply list_elem_of_In in Htool.
      destruct Htool as [<- | [<- | [<- | []]]]; repeat constructor. }
    rewrite outcome_bind, Hlocked, Hfs.
    unfold spec_select_package_manager, lock_files. cbn [find fst snd].
    destruct (present fs "pnpm-lock.yaml" && probe E fs "pnpm"); [reflexivity |].
    destruct (present fs "yarn.lock" && probe E fs "yarn"); [reflexivity |].
    destruct (present fs "package-lock.json" && probe E fs "npm"); [reflexivity |].
    cbn [fmap option_fmap option_map]. rewrite Hnext. cbn [find].
    destruct (probe E fs "npm"); [reflexivity |].
    destruct (probe E fs "pnpm"); [reflexivity |].
    destruct (probe E fs "yarn"); reflexivity.
  - intros Hlock Hprobe. unfold get_package_manager, lock_files.
    cbn [first_locked]. rewrite outcome_bind, bind_path_exists, Hlock.
    rewrite outcome_bind, has_command_ok, Hprobe. reflexivity.
Qed.

Lemma package_manager_order_witness :
  let E := unix_host [("pnpm --version", exit_with 0 ""); ("npm --version", exit_with 0 "")] in
  let fs := files [("pnpm-lock.yaml", File ""); ("package-lock.json", File "{}")] in
  outcome (get_package_manager E fs) = Ok (Some "pnpm") ∧
  outcome (get_package_manager E (files [("yarn.lock", File "")])) = Ok (Some "npm").
Proof.
  cbv zeta. split.
  - apply (proj2 (package_manager_order _ _)); vm_compute; reflexivity.
  - rewrite (proj1 (package_manager_order _ _)); [vm_compute; reflexivity |].
    intros tool Htool. apply list_elem_of_In in Htool.
    destruct Htool as [<- | [<- | [<- | []]]]; vm_compute; reflexivity.
Defined.

(** ** C2: Node setup *)

Lemma has_command_events E tool fs :
  events (_has_command E tool fs) = [probe_event tool].
Proof.
  unfold _has_command, try_except, bind, ret, probe_event.
  pose proof (subprocess_run_events E (CmdStr (tool +:+ " --version")) true None fs)
    as Hev.
  destruct (subprocess_run E _ true None fs) as [[[c|e] fs'] ev];
    cbn in Hev; subst ev; [reflexivity |].
  destruct e as [| | [] | | | | |]; reflexivity.
Qed.

Lemma first_locked_events E l fs :
  Forall (λ e, ∃ entry, entry ∈ l ∧ e = probe_event entry.2)
    (events (first_locked E l fs)).
Proof.
  revert fs. induction l as [|[lock_file pm] l IH]; intros fs; [constructor |].
  assert (∀ fs', Forall
            (λ e, ∃ entry, entry ∈ (lock_file, pm) :: l ∧ e = probe_event entry.2)
            (events (first_locked E l fs'))) as Hrest.
  { intros fs'. eapply Forall_impl; [apply IH |].
    intros e (entry & Hentry & ->). exists entry. split; [by right | done]. }
  assert (∃ entry, entry ∈ (lock_file, pm) :: l ∧ probe_event pm = probe_event entry.2)
    as Hhere by (exists (lock_file, pm); split; [by left | done]).
  cbn [first_locked]. rewrite bind_path_exists.
  destruct (present fs lock_file); [| rewrite bind_ret_l; apply Hrest].
  rewrite events_bind, has_command_ok, has_command_events.
  destruct (probe E fs pm); cbn; constructor; done.
Qed.

Lemma next_available_events E l fs :
  Forall (λ e, ∃ tool, tool ∈ l ∧ e = probe_event tool)
    (events (next_available E l fs)).
Proof.
  revert fs. induction l as [|tool l IH]; intros fs; [constructor |].
  assert (∀ fs', Forall (λ e, ∃ t, t ∈ tool :: l ∧ e = probe_event t)
                   (events (next_available E l fs'))) as Hrest.
  { intros fs'. eapply Forall_impl; [apply IH |].
    intros e (t & Ht & ->). exists t. split; [by right | done]. }
  assert (∃ t, t ∈ tool :: l ∧ probe_event tool = probe_event t)
    as Hhere by (exists tool; split; [by left | done]).
  cbn [next_available].
  rewrite events_bind, has_command_ok, has_command_events.
  destruct (probe E fs tool); cbn; constructor; done.
Qed.

(** [get_package_manager] only probes pnpm, yarn and npm. *)
Lemma get_package_manager_events E fs e :
  e ∈ events (get_package_manager E fs) →
  e ∈ [probe_event "pnpm"; probe_event "yarn"; probe_event "npm"].
Proof.
  unfold get_package_manager. rewrite events_bind.
  pose proof (first_locked_events E lock_files fs) as Hlocked.
  assert (∀ e, e ∈ events (first_locked E lock_files fs) →
               e ∈ [probe_event "pnpm"; probe_event "yarn"; probe_event "npm"])
    as Hfirst.
  { intros e' He'. rewrite Forall_forall in Hlocked.
    destruct (Hlocked e' He') as (entry & Hentry & ->).
    apply list_elem_of_In in Hentry.
    destruct Hentry as [<- | [<- | [<- | []]]]; cbn [snd]; repeat constructor. }
  destruct (outcome (first_locked E lock_files fs)) as [[pm|]|ex];
    [cbn; rewrite app_nil_r; by apply Hfirst | | by apply Hfirst].
  rewrite elem_of_app. intros [He | He]; [by apply Hfirst |].
  pose proof (next_available_events E ["npm"; "pnpm"; "yarn"]
                (final_fs (first_locked E lock_files fs))) as Hnext.
  rewrite Forall_forall in Hnext. destruct (Hnext e He) as (tool & Htool & ->).
  apply list_elem_of_In in Htool.
  destruct Htool as [<- | [<- | [<- | []]]]; repeat constructor.
Qed.

(** A command other than the one [execute] was called with is not among
    its events. *)
Lemma execute_not_attempted E config cmd cmd' cwd fs :
  exec_mark config cmd' None ≠ exec_mark config cmd cwd →
  ¬ attempted config cmd' (events (execute E config cmd cwd fs)).
Proof.
  intros Hne Hin. unfold attempted in Hin.
  destruct (dry_run config) eqn:Hdry.
  - rewrite execute_dry in Hin by done. cbn in Hin.
    apply list_elem_of_singleton in Hin. apply Hne.
    unfold exec_mark in *. rewrite Hdry in *. exact Hin.
  - apply Hne. eapply execute_spawns; [exact Hin |].
    unfold exec_mark. rewrite Hdry. exact I.
Qed.

Lemma run_Ok {A} (x : result A * FS * list event) a :
  outcome x = Ok a → x = (Ok a, final_fs x, events x).
Proof. intros <-. apply run_eta. Qed.

(** C2, as the code has it. When npm is chosen and [package-lock.json]
    exists, [npm ci] is attempted first.  If it succeeds, Node setup
    succeeds and [npm install] is not run.  If it fails, [npm install] is
    run after it and decides the result: the generic install is the
    fallback of a failed reproducible install, not only the path taken
    when [npm ci] does not apply. *)
Theorem npm_ci_then_install_on_failure (E : Env) (config : RuntimeConfig) (fs : FS) :
  let chosen := get_package_manager E fs in
  let ci := execute E config (CmdStr "npm ci") None (final_fs chosen) in
  let install := execute E config (CmdStr "npm install") None (final_fs ci) in
  let run := setup_node E config fs in
  outcome chosen = Ok (Some "npm") →
  present (final_fs chosen) "package-lock.json" = true →
  ∃ clean,
    outcome ci = Ok clean ∧
    attempted config (CmdStr "npm ci") (events run) ∧
    (clean = true →
     run = (Ok true, final_fs ci,
            EPrint "📦 Node.js setup..." :: events chosen
            ++ EPrint "  Using: npm" :: events ci) ∧
     ¬ attempted config (CmdStr "npm install") (events run)) ∧
    (clean = false →
     run = (outcome install, final_fs install,
            EPrint "📦 Node.js setup..." :: events chosen
            ++ EPrint "  Using: npm" :: events ci ++ events install) ∧
     attempted config (CmdStr "npm install") (events run)).
Proof.
  intros chosen ci install run Hpm Hlock.
  destruct (execute_total E config (CmdStr "npm ci") None (final_fs chosen))
    as [clean Hci]; [done |].
  exists clean. split; [exact Hci |].
  assert (run = if clean
                then (Ok true, final_fs ci,
                      EPrint "📦 Node.js setup..." :: events chosen
                      ++ EPrint "  Using: npm" :: events ci)
                else (outcome install, final_fs install,
                      EPrint "📦 Node.js setup..." :: events chosen
                      ++ EPrint "  Using: npm" :: events ci ++ events install))
    as Hrun.
  { unfold run, setup_node. rewrite bind_print.
    rewrite (bind_Ok _ _ _ _ _ _ (run_Ok _ _ Hpm)). fold chosen.
    rewrite bind_print. cbn [outcome final_fs events fst snd].
    rewrite bool_decide_eq_true_2 by reflexivity.
    rewrite bind_path_exists, Hlock.
    rewrite (bind_Ok _ _ _ _ _ _ (run_Ok _ _ Hci)). fold ci.
    destruct clean; cbn [outcome final_fs events fst snd ret].
    - by rewrite app_nil_r.
    - reflexivity. }
  assert (exec_mark config (CmdStr "npm ci") None ∈ events ci) as Hmark
    by apply execute_mark.
  split.
  { unfold attempted. rewrite Hrun.
    destruct clean; cbn [events snd];
      rewrite elem_of_cons, !elem_of_app, elem_of_cons, ?elem_of_app; tauto. }
  split; intros ->.
  - split; [exact Hrun |]. rewrite Hrun. cbn [events snd]. unfold attempted.
    rewrite elem_of_cons, elem_of_app, elem_of_cons.
    intros [Hbanner | [Hchosen | [Husing | Hci']]].
    + unfold exec_mark in Hbanner. destruct (dry_run config);
        vm_compute in Hbanner; discriminate.
    + apply get_package_manager_events, list_elem_of_In in Hchosen.
      unfold exec_mark in Hchosen.
      destruct (dry_run config), Hchosen as [H | [H | [H | []]]];
        vm_compute in H; discriminate.
    + unfold exec_mark in Husing. destruct (dry_run config);
        vm_compute in Husing; discriminate.
    + revert Hci'. apply execute_not_attempted.
      unfold exec_mark. destruct (dry_run config); vm_compute; discriminate.
  - split; [exact Hrun |]. rewrite Hrun. cbn [events snd]. unfold attempted.
    rewrite elem_of_cons, elem_of_app, elem_of_cons, elem_of_app.
    do 3 right. right. apply execute_mark.
Qed.

Lemma npm_ci_then_install_on_failure_witness :
  attempted windows_config (CmdStr "npm ci")
    (events (setup_node npm_windows_host windows_config node_project)).
Proof.
  destruct (npm_ci_then_install_on_failure npm_windows_host windows_config node_project)
    as (clean & _ & Hci & _).
  - vm_compute. reflexivity.
  - vm_compute. reflexivity.
  - exact Hci.
Defined.

(** C2, as the specification states it, fails: on a host where [npm ci] exits with an
    error, npm is chosen, [package-lock.json] exists, [npm ci] is
    attempted, and the generic [npm install] is run all the same (and
    makes the setup succeed). *)
Lemma install_runs_after_failed_npm_ci :
  let run := setup_node npm_windows_host windows_config node_project in
  outcome (get_package_manager npm_windows_host node_project) = Ok (Some "npm") ∧
  present node_project "package-lock.json" = true ∧
  attempted windows_config (CmdStr "npm ci") (events run) ∧
  attempted windows_config (CmdStr "npm install") (events run) ∧
  outcome run = Ok true.
Proof.
  cbv zeta. unfold attempted.
  split; [vm_compute; reflexivity |].
  split; [vm_compute; reflexivity |].
  split; [apply (bool_decide_unpack _); vm_compute; exact I |].
  split; [apply (bool_decide_unpack _); vm_compute; exact I |].
  vm_compute; reflexivity.
Qed.

(** ** C7: the virtual environment is created once *)

Lemma bind_assoc {A B C} (m : M A) (f : A → M B) (g : B → M C) fs :
  bind (bind m f) g fs = bind m (λ a, bind (f a) g) fs.
Proof.
  unfold bind. destruct (m fs) as [[[a|e] fs1] ev1]; [| reflexivity].
  destruct (f a fs1) as [[[b|e] fs2] ev2]; [| reflexivity].
  destruct (g b fs2) as [[r fs3] ev3]. by rewrite app_assoc.
Qed.

Lemma last_char_app s t : t ≠ "" → last_char (s +:+ t) = last_char t.
Proof.
  intros Ht. induction s as [|a s IH]; [reflexivity |].
  change (String a s +:+ t) with (String a (s +:+ t)). cbn [last_char].
  rewrite IH. destruct t as [|b t]; [done |].
  cbn [last_char]. by destruct (last_char t).
Qed.

Lemma attempts_app config cmd l1 l2 :
  attempts config cmd (l1 ++ l2)
  = (attempts config cmd l1 + attempts config cmd l2)%nat.
Proof. unfold attempts. by rewrite filter_app, length_app. Qed.

Lemma attempts_cons_ne config cmd e l :
  e ≠ exec_mark config cmd None →
  attempts config cmd (e :: l) = attempts config cmd l.
Proof. intros Hne. unfold attempts. by rewrite filter_cons_False. Qed.

Lemma attempted_attempts config cmd l :
  attempted config cmd l ↔ attempts config cmd l ≠ 0%nat.
Proof.
  unfold attempted, attempts. split.
  - intros Hin Hlen. apply nil_length_inv in Hlen.
    assert (exec_mark config cmd None
            ∈ filter (λ e, e = exec_mark config cmd None) l) as Hf
      by by apply list_elem_of_filter.
    rewrite Hlen in Hf. by apply elem_of_nil in Hf.
  - intros Hlen.
    destruct (filter (λ e, e = exec_mark config cmd None) l) as [|e rest] eqn:Hf;
      [done |].
    assert (e ∈ filter (λ e, e = exec_mark config cmd None) l) as He
      by (rewrite Hf; left).
    apply list_elem_of_filter in He as [-> He]. exact He.
Qed.

Lemma attempts_prints config cmd l :
  Forall is_print l → dry_run config = false → attempts config cmd l = 0%nat.
Proof.
  intros Hl Hdry. induction Hl as [|e l He _ IH]; [reflexivity |].
  rewrite attempts_cons_ne; [exact IH |].
  unfold exec_mark. rewrite Hdry. by destruct e.
Qed.

Lemma execute_attempts_self E config cmd fs :
  attempts config cmd (events (execute E config cmd None fs)) = 1%nat.
Proof.
  destruct (dry_run config) eqn:Hdry.
  - rewrite execute_dry by done. unfold attempts, exec_mark. rewrite Hdry.
    cbn [events snd]. by rewrite filter_cons_True.
  - destruct (execute_wet_shape E config cmd None fs Hdry) as (post & -> & Hpost).
    rewrite attempts_app, (attempts_prints _ _ (if verbose config then _ else _));
      [| destruct (verbose config); repeat constructor | done].
    unfold attempts at 1. rewrite filter_cons_True
      by (unfold exec_mark; by rewrite Hdry).
    cbn [length]. fold (attempts config cmd post).
    by rewrite attempts_prints.
Qed.

Lemma execute_attempts_other E config cmd cmd' cwd fs :
  exec_mark config cmd' None ≠ exec_mark config cmd cwd →
  attempts config cmd' (events (execute E config cmd cwd fs)) = 0%nat.
Proof.
  intros Hne. destruct (attempts _ _ _) eqn:Hn; [reflexivity |].
  exfalso. apply (execute_not_attempted E config cmd cmd' cwd fs Hne).
  apply attempted_attempts. by rewrite Hn.
Qed.

Lemma last_char_None s : last_char s = None → s = "".
Proof.
  destruct s as [|a s]; [done |]. cbn. by destruct (last_char s).
Qed.

Lemma last_char_join sep l x :
  x ≠ "" → last_char (join sep (l ++ [x])) = last_char x.
Proof.
  intros Hx. induction l as [|a l IH]; [reflexivity |].
  assert (join sep (l ++ [x]) ≠ "") as Hjoin.
  { intros Hempty. rewrite Hempty in IH. symmetry in IH.
    by apply last_char_None in IH. }
  change (join sep ((a :: l) ++ [x]))
    with (match l ++ [x] with
          | [] => a
          | _ :: _ => a +:+ sep +:+ join sep (l ++ [x])
          end).
  destruct (l ++ [x]) as [|b rest] eqn:Hl; [by destruct l |].
  rewrite last_char_app, last_char_app; [exact IH | exact Hjoin |].
  intros Hempty. apply (f_equal last_char) in Hempty.
  rewrite last_char_app, IH in Hempty by exact Hjoin.
  by apply last_char_None in Hempty.
Qed.

(** The command that creates the virtual environment is not one of the
    pip commands: it ends in [.venv], they end in their target. *)
Lemma venv_create_mark_ne E config (pip flag target : string) :
  target ≠ "" → last_char target ≠ Some "v"%char →
  exec_mark config (venv_create_cmd E) None
  ≠ exec_mark config (CmdList [pip; "install"; flag; target]) None.
Proof.
  intros Hne Hlast.
  assert (join " " [sys_executable E; "-m"; "venv"; ".venv"]
          ≠ join " " [pip; "install"; flag; target]) as Hjoin.
  { intros Heq. apply (f_equal last_char) in Heq.
    change [sys_executable E; "-m"; "venv"; ".venv"]
      with ([sys_executable E; "-m"; "venv"] ++ [".venv"]) in Heq.
    change [pip; "install"; flag; target]
      with ([pip; "install"; flag] ++ [target]) in Heq.
    rewrite !last_char_join in Heq by done. by rewrite <- Heq in Hlast. }
  unfold exec_mark, venv_create_cmd, _prepare_command, cmd_display.
  destruct (dry_run config).
  - intros [= Heq]. by apply (inj _) in Heq.
  - destruct (is_windows config).
    + intros [= Heq]. done.
    + intros Heq. injection Heq. intros. discriminate.
Qed.

Lemma install_python_deps_attempts E config fs :
  attempts config (venv_create_cmd E)
    (events (_install_python_deps E config (venv_path config KPip) fs)) = 0%nat.
Proof.
  assert (∀ s, EPrint ("  Installing " +:+ s) ≠ exec_mark config (venv_create_cmd E) None)
    as Hprint.
  { intros s. unfold exec_mark. destruct (dry_run config); [| done].
    intros Heq. vm_compute in Heq. discriminate. }
  unfold _install_python_deps. rewrite bind_path_exists.
  destruct (present fs "requirements.txt").
  - rewrite bind_print. cbn [events snd].
    rewrite attempts_cons_ne by apply (Hprint "requirements.txt...").
    apply execute_attempts_other, venv_create_mark_ne; [done |].
    vm_compute. discriminate.
  - rewrite bind_path_exists. destruct (present fs "pyproject.toml"); [| reflexivity].
    rewrite bind_print. cbn [events snd].
    rewrite attempts_cons_ne by apply (Hprint "pyproject.toml...").
    apply execute_attempts_other, venv_create_mark_ne; [done |].
    vm_compute. discriminate.
Qed.

Lemma venv_create_cmd_nonempty E : venv_create_cmd E ≠ CmdList [].
Proof. discriminate. Qed.

(** One run of Python setup calls the creation command once when [.venv]
    is absent, and not at all when it exists. *)
Lemma setup_python_attempts E config fs :
  attempts config (venv_create_cmd E) (events (setup_python E config fs))
  = if present fs ".venv" then 0%nat else 1%nat.
Proof.
  assert (∀ s, s = "🐍 Python setup..." ∨ s = "  Creating virtual environment..." →
               EPrint s ≠ exec_mark config (venv_create_cmd E) None) as Hprint.
  { intros s Hs. unfold exec_mark. destruct (dry_run config); [| done].
    intros Heq. destruct Hs as [-> | ->]; vm_compute in Heq; discriminate. }
  unfold setup_python. cbv zeta. rewrite bind_print. cbn [events snd].
  rewrite attempts_cons_ne by (apply Hprint; by left).
  rewrite bind_path_exists. destruct (present fs ".venv"); cbn [negb].
  - rewrite bind_ret_l. cbn [negb]. apply install_python_deps_attempts.
  - rewrite bind_assoc, bind_print. cbn [events snd].
    rewrite attempts_cons_ne by (apply Hprint; by right).
    destruct (execute_total E config (venv_create_cmd E) None fs
                (venv_create_cmd_nonempty E)) as [created Hcreated].
    rewrite events_bind, Hcreated, attempts_app, execute_attempts_self.
    destruct created; cbn [negb]; [| reflexivity].
    by rewrite install_python_deps_attempts.
Qed.

Lemma present_None (fs : FS) p : present fs p = false ↔ fs !! p = None.
Proof.
  unfold present. rewrite bool_decide_eq_false, <- eq_None_not_Some. reflexivity.
Qed.

(** C7. Python setup hands the creation command to [execute] exactly when
    the [.venv] directory is absent, and never more than once in a run.
    So across two consecutive runs of which the second starts with
    [.venv] in place (the first created it, or it was there before), the
    second run does not attempt creation and the creation command is
    invoked at most once in total. *)
Theorem venv_creation_idempotent (E : Env) (config : RuntimeConfig) (fs : FS) :
  let first := setup_python E config fs in
  let second := setup_python E config (final_fs first) in
  (attempted config (venv_create_cmd E) (events first) ↔ fs !! ".venv" = None) ∧
  (attempts config (venv_create_cmd E) (events first) ≤ 1)%nat ∧
  (is_Some (final_fs first !! ".venv") →
   ¬ attempted config (venv_create_cmd E) (events second) ∧
   (attempts config (venv_create_cmd E) (events first ++ events second) ≤ 1)%nat).
Proof.
  cbv zeta. split; [| split].
  - rewrite attempted_attempts, setup_python_attempts, <- present_None.
    destruct (present fs ".venv"); split; done.
  - rewrite setup_python_attempts. destruct (present fs ".venv"); lia.
  - intros Hvenv.
    assert (present (final_fs (setup_python E config fs)) ".venv" = true) as Hpresent
      by (unfold present; by rewrite bool_decide_eq_true_2).
    split.
    + rewrite attempted_attempts, setup_python_attempts, Hpresent. by intros Hne.
    + rewrite attempts_app, !setup_python_attempts, Hpresent.
      destruct (present fs ".venv"); lia.
Qed.

Lemma venv_creation_idempotent_witness :
  let fs := files [("requirements.txt", File "requests")] in
  let first := setup_python python_host unix_config fs in
  let second := setup_python python_host unix_config (final_fs first) in
  fs !! ".venv" = None ∧
  final_fs first !! ".venv" = Some Dir ∧
  attempts unix_config (venv_create_cmd python_host) (events first) = 1%nat ∧
  (attempts unix_config (venv_create_cmd python_host)
     (events first ++ events second) ≤ 1)%nat.
Proof.
  cbv zeta.
  split; [vm_compute; reflexivity |].
  split; [vm_compute; reflexivity |].
  split; [vm_compute; reflexivity |].
  apply (venv_creation_idempotent python_host unix_config
           (files [("requirements.txt", File "requests")])).
  vm_compute. eauto.
Defined.

(** ** C6: Flutter setup *)


Lemma append_cons a s t : String a s +:+ t = String a (s +:+ t).
Proof. reflexivity. Qed.



Lemma has_build_runner_run config fs :
  _has_build_runner config fs
  = if dry_run config || negb (present fs "pubspec.yaml")
    then (Ok false, fs, [])
    else (match fs !! "pubspec.yaml" with
          | Some (File text) => Ok (contains "build_runner:" text)
          | Some Undecodable => Raise UnicodeDecodeError
          | _ => Ok false
          end, fs, [ERead "pubspec.yaml"]).
Proof.
  unfold _has_build_runner. rewrite bind_path_exists.
  destruct (present fs "pubspec.yaml"), (dry_run config); cbn [negb orb];
    try reflexivity.
  unfold try_except, bind, read_text, ret.
  destruct (fs !! "pubspec.yaml") as [[]|]; reflexivity.
Qed.






(** ** C8: manifests that cannot be read *)

(** What the [except] clauses do catch: a manifest that cannot be opened
    or read, and a [package.json] that is not JSON, count as "nothing
    declared". *)
Lemma build_runner_check_recovers config fs :
  fs !! "pubspec.yaml" = None ∨ fs !! "pubspec.yaml" = Some Dir
  ∨ fs !! "pubspec.yaml" = Some Unreadable →
  outcome (_has_build_runner config fs) = Ok false.
Proof.
  rewrite has_build_runner_run.
  intros [Hp | [Hp | Hp]]; rewrite Hp;
    by destruct (dry_run config || negb (present fs "pubspec.yaml")).
Qed.

Lemma format_script_check_recovers E fs :
  fs !! "package.json" = None ∨ fs !! "package.json" = Some Dir
  ∨ fs !! "package.json" = Some Unreadable
  ∨ (∃ text, fs !! "package.json" = Some (File text) ∧ json_loads E text = None) →
  outcome (_has_npm_format_script E fs) = Ok false.
Proof.
  unfold _has_npm_format_script. rewrite bind_path_exists.
  destruct (present fs "package.json"); [| reflexivity]. cbn [negb].
  unfold try_except, bind, read_text, loads, ret, raise.
  intros [Hp | [Hp | [Hp | (text & Hp & Hjson)]]]; rewrite Hp; try reflexivity.
  by rewrite Hjson.
Qed.

(** C8, what the code does with the other manifest failures.  A
    [pubspec.yaml] that cannot be decoded makes [read_text] raise
    [UnicodeDecodeError], which [except (IOError, OSError)] does not
    catch; a [package.json] holding valid JSON that is not an object makes
    [pkg_data.get] raise [AttributeError], which
    [except (json.JSONDecodeError, IOError)] does not catch.  Either
    exception leaves the check, the strategy and [main]: the run ends with
    status 1 although the same run with a readable (or non-JSON) manifest
    ends with status 0. *)
Theorem manifest_failures_escape :
  _has_build_runner windows_config (files [("pubspec.yaml", Undecodable)])
  = (Raise UnicodeDecodeError, files [("pubspec.yaml", Undecodable)],
     [ERead "pubspec.yaml"]) ∧
  outcome (main flutter_host ["autofix.py"] (files [("pubspec.yaml", Undecodable)]))
  = Raise UnicodeDecodeError ∧
  exit_status
    (outcome (main flutter_host ["autofix.py"] (files [("pubspec.yaml", Undecodable)])))
  = 1 ∧
  exit_status
    (outcome (main flutter_host ["autofix.py"] (files [("pubspec.yaml", File "name: app")])))
  = 0 ∧
  _has_npm_format_script npm_host (files [("package.json", File "[]")])
  = (Raise AttributeError, files [("package.json", File "[]")],
     [ERead "package.json"]) ∧
  outcome (main npm_host ["autofix.py"; "-n"] (files [("package.json", File "[]")]))
  = Raise AttributeError ∧
  exit_status
    (outcome (main npm_host ["autofix.py"; "-n"] (files [("package.json", File "[]")])))
  = 1 ∧
  exit_status
    (outcome (main npm_host ["autofix.py"; "-n"] (files [("package.json", File "{")])))
  = 0.
Proof. repeat split; vm_compute; reflexivity. Qed.

(** * Further properties of the script *)

(** ** Detection *)

Lemma filter_sublist_impl {A} (P Q : A → Prop)
    `{!∀ x, Decision (P x)} `{!∀ x, Decision (Q x)} (l : list A) :
  (∀ x, P x → Q x) → filter P l `sublist_of` filter Q l.
Proof.
  intros HPQ. induction l as [|x l IH]; [done |].
  rewrite !filter_cons. destruct (decide (P x)) as [HP | HP].
  - rewrite decide_True by auto. by apply sublist_skip.
  - destruct (decide (Q x)); [by apply sublist_cons | exact IH].
Qed.

Lemma existsb_present fs markers :
  existsb (present fs) markers ↔ ∃ f, f ∈ markers ∧ is_Some (fs !! f).
Proof.
  rewrite Is_true_true, existsb_exists. unfold present.
  split; intros (f & Hf & Hp); exists f.
  - split; [by apply list_elem_of_In | by apply bool_decide_eq_true in Hp].
  - split; [by apply list_elem_of_In | by apply bool_decide_eq_true].
Qed.

(** X1. Detection has no effect of its own and answers with the
    ecosystems of the marker table, in table order, for which at least
    one marker path exists. *)
Theorem detect_languages_markers (fs : FS) :
  ∃ detected,
    detect_languages fs = (Ok detected, fs, []) ∧
    (∀ lang, lang ∈ detected
             ↔ ∃ markers, (lang, markers) ∈ PROJECT_DETECTORS
                          ∧ ∃ f, f ∈ markers ∧ is_Some (fs !! f)) ∧
    detected `sublist_of` PROJECT_DETECTORS.*1.
Proof.
  exists (detected_in fs). split; [apply detect_languages_run |].
  unfold detected_in. split.
  - intros lang. rewrite list_elem_of_fmap. split.
    + intros ([l markers] & -> & Hin). apply list_elem_of_filter in Hin as [Hp Hin].
      exists markers. split; [exact Hin |]. by apply existsb_present.
    + intros (markers & Hin & Hp). exists (lang, markers). split; [done |].
      apply list_elem_of_filter. split; [| exact Hin]. by apply existsb_present.
  - apply fmap_sublist, sublist_filter.
Qed.

Lemma present_insert_mono (fs : FS) p n q :
  present fs q → present (<[p:=n]> fs) q.
Proof.
  unfold present. rewrite !bool_decide_spec. intros Hq.
  destruct (decide (p = q)) as [-> | Hne];
    [by rewrite lookup_insert_eq | by rewrite lookup_insert_ne].
Qed.

(** X2. Adding an entry to the working directory never removes an
    ecosystem from the answer nor reorders it, makes every ecosystem it is
    a marker of detected, and changes nothing when the path existed
    already: only existence counts, not content. *)
Theorem detection_monotone (fs : FS) (p : string) (n : node) :
  ∃ before after,
    outcome (detect_languages fs) = Ok before ∧
    outcome (detect_languages (<[p:=n]> fs)) = Ok after ∧
    before `sublist_of` after ∧
    (∀ lang markers,
       (lang, markers) ∈ PROJECT_DETECTORS → p ∈ markers → lang ∈ after) ∧
    (is_Some (fs !! p) → after = before).
Proof.
  exists (detected_in fs), (detected_in (<[p:=n]> fs)).
  rewrite !detect_languages_run. split; [done |]. split; [done |].
  unfold detected_in. split; [| split].
  - apply fmap_sublist, filter_sublist_impl. intros [lang markers]. cbn.
    rewrite !existsb_present. intros (f & Hf & Hp). exists f. split; [done |].
    apply (bool_decide_unpack _). apply Is_true_true.
    apply Is_true_true, (present_insert_mono fs p n f). unfold present.
    by apply Is_true_true, bool_decide_eq_true.
  - intros lang markers Hin Hp. apply list_elem_of_fmap.
    exists (lang, markers). split; [done |].
    apply list_elem_of_filter. split; [| exact Hin]. cbn.
    apply existsb_present. exists p. split; [exact Hp |].
    rewrite lookup_insert_eq. eauto.
  - intros Hsome. f_equal. apply list_filter_iff. intros [lang markers]. cbn.
    rewrite !existsb_present. split; intros (f & Hf & Hp); exists f; (split; [done |]).
    + destruct (decide (p = f)) as [-> | Hne]; [done |].
      by rewrite lookup_insert_ne in Hp.
    + destruct (decide (p = f)) as [-> | Hne];
        [rewrite lookup_insert_eq; eauto | by rewrite lookup_insert_ne].
Qed.

(** ** Arguments *)

(** X3. [parse_arguments] depends only on which of the six flags occur in
    the argument list: their order, their repetition and every other
    argument are irrelevant.  Two argument lists with the same flags give
    the same result, the same printed help and leave the file system
    alone. *)
Theorem parse_arguments_flags_only (E : Env) (argv1 argv2 : list string) (fs : FS) :
  (∀ flag, flag ∈ recognised_flags → (flag ∈ argv1 ↔ flag ∈ argv2)) →
  parse_arguments E argv1 fs = parse_arguments E argv2 fs ∧
  final_fs (parse_arguments E argv1 fs) = fs ∧
  Forall is_print (events (parse_arguments E argv1 fs)).
Proof.
  intros Hflags.
  assert (∀ flag, flag ∈ recognised_flags →
                  bool_decide (flag ∈ argv1) = bool_decide (flag ∈ argv2)) as Hb.
  { intros flag Hflag. apply bool_decide_ext, Hflags, Hflag. }
  unfold parse_arguments.
  rewrite (Hb "--help"), (Hb "-h"), (Hb "--dry-run"), (Hb "-n"),
    (Hb "--verbose"), (Hb "-v") by (unfold recognised_flags; repeat constructor).
  split; [reflexivity |].
  destruct (bool_decide ("--help" ∈ argv2) || bool_decide ("-h" ∈ argv2));
    split; try reflexivity; repeat constructor.
Qed.

Lemma parse_arguments_flags_only_witness :
  parse_arguments (unix_host []) ["autofix.py"; "-n"; "-v"] ∅
  = parse_arguments (unix_host []) ["-v"; "--unknown"; "-n"; "-n"] ∅.
Proof.
  apply (parse_arguments_flags_only (unix_host [])).
  intros flag Hflag. apply list_elem_of_In in Hflag.
  destruct Hflag as [<- | [<- | [<- | [<- | [<- | [<- | []]]]]]];
    apply (bool_decide_unpack _); vm_compute; exact I.
Defined.

(** ** Commands *)

(** X4. [_prepare_command] never changes what is displayed for a command;
    off Windows it changes nothing; on Windows the result is always one
    string, the elements joined by blanks without quoting, so that an
    argument holding a blank becomes indistinguishable from two arguments. *)
Theorem prepare_command_joins (config : RuntimeConfig) (cmd : command) :
  cmd_display (_prepare_command config cmd) = cmd_display cmd ∧
  (is_windows config = false → _prepare_command config cmd = cmd) ∧
  (is_windows config = true →
   _prepare_command config cmd = CmdStr (cmd_display cmd) ∧
   ∀ a b rest,
     _prepare_command config (CmdList ((a +:+ " " +:+ b) :: rest))
     = _prepare_command config (CmdList (a :: b :: rest))).
Proof.
  split; [| split].
  - destruct cmd as [s | l]; [reflexivity |]. cbn. by destruct (is_windows config).
  - intros Hwin. destruct cmd as [s | l]; [reflexivity |]. cbn. by rewrite Hwin.
  - intros Hwin. split.
    + destruct cmd as [s | l]; [reflexivity |]. cbn. by rewrite Hwin.
    + intros a b rest. cbn. rewrite Hwin. f_equal.
      destruct rest as [|c rest]; cbn [join]; [reflexivity |].
      induction a as [|x a IH]; [reflexivity |].
      rewrite !append_cons. f_equal. exact IH.
Qed.

Lemma prepare_command_joins_witness :
  _prepare_command windows_config (CmdList ["C:\Program Files\python.exe"; "-m"; "venv"])
  = CmdStr "C:\Program Files\python.exe -m venv".
Proof.
  apply (prepare_command_joins windows_config
           (CmdList ["C:\Program Files\python.exe"; "-m"; "venv"])).
  reflexivity.
Defined.

Lemma handle_error_run E config cmd rc err fs :
  _handle_error E config cmd rc err fs
  = (Ok (), fs,
     EPrint ("  ❌ Command failed: " +:+ cmd_display cmd)
     :: (if verbose config
         then EPrint ("  Error code: " +:+ pretty rc)
              :: (if nonempty err then [EPrint ("  Error: " +:+ str_strip E err)] else [])
         else if nonempty err
              then [EPrint ("  Error: " +:+ last_line (str_strip E err))] else [])).
Proof.
  unfold _handle_error. rewrite bind_print.
  destruct (verbose config); [rewrite bind_print |]; by destruct (nonempty err).
Qed.

(** What [execute] does outside dry-run mode, by the answer of the
    operating system. *)
Lemma execute_wet_run E config cmd cwd fs :
  dry_run config = false →
  execute E config cmd cwd fs
  = let call := ESpawn (_prepare_command config cmd) (is_windows config) cwd in
    let running :=
      if verbose config then [EPrint ("  Running: " +:+ cmd_display cmd)] else [] in
    let started := spawn E (_prepare_command config cmd) (is_windows config) cwd fs in
    match started.1 with
    | Ok (Exited c) =>
        if returncode c =? 0 then
          (Ok true, started.2,
           running ++ call
           :: (if verbose config && nonempty (str_strip E (stdout c))
               then [EPrint ("  Output: " +:+ str_strip E (stdout c))] else []))
        else
          (Ok false, started.2,
           running ++ call
           :: events (_handle_error E config cmd (returncode c) (stderr c) started.2))
    | Ok NoSuchExecutable =>
        (Ok false, started.2,
         running ++ [call; EPrint ("  ❌ Command not found: " +:+ cmd_format E cmd)])
    | Raise e => (Raise e, started.2, running ++ [call])
    end.
Proof.
  intros Hdry. unfold execute. rewrite Hdry. cbv zeta.
  unfold try_except, subprocess_run.
  destruct (spawn E (_prepare_command config cmd) (is_windows config) cwd fs)
    as [[[c|]|e] fs'] eqn:Hspawn; cbn [fst snd].
  - destruct (verbose config) eqn:Hv; unfold bind, print, ret; rewrite Hspawn;
      destruct (returncode c =? 0); cbn [andb]; rewrite ?handle_error_run, ?Hv;
      try destruct (nonempty (str_strip E (stdout c))); try destruct (nonempty (stderr c));
      reflexivity.
  - destruct (verbose config); unfold bind, print, ret; rewrite Hspawn; reflexivity.
  - assert (e = IndexError) as ->.
    { unfold spawn in Hspawn. destruct (is_windows config).
      - destruct (shell E _ cwd fs); discriminate.
      - destruct (popen_args _) as [|a0 args]; [by injection Hspawn |].
        destruct (lookup_executable E fs a0) as [prog|];
          [destruct (prog _ cwd fs) |]; discriminate. }
    destruct (verbose config); unfold bind, print, ret; rewrite Hspawn; reflexivity.
Qed.

(** X6. The verbose flag changes only what [execute] prints: two
    configurations that differ in nothing else give the same result, the
    same file system and the same events other than prints. *)
Theorem execute_verbose_only_prints (E : Env) (config1 config2 : RuntimeConfig)
    (cmd : command) (cwd : option string) (fs : FS) :
  dry_run config1 = dry_run config2 → is_windows config1 = is_windows config2 →
  outcome (execute E config1 cmd cwd fs) = outcome (execute E config2 cmd cwd fs) ∧
  final_fs (execute E config1 cmd cwd fs) = final_fs (execute E config2 cmd cwd fs) ∧
  filter (λ e, ¬ is_print e) (events (execute E config1 cmd cwd fs))
  = filter (λ e, ¬ is_print e) (events (execute E config2 cmd cwd fs)).
Proof.
  intros Hdry Hwin. destruct (dry_run config2) eqn:Hdry2.
  - rewrite !execute_dry by done. done.
  - assert (_prepare_command config1 cmd = _prepare_command config2 cmd) as Hprep.
    { unfold _prepare_command. by rewrite Hwin. }
    rewrite !execute_wet_run by done. cbv zeta. rewrite Hprep, Hwin.
    destruct (spawn E (_prepare_command config2 cmd) (is_windows config2) cwd fs)
      as [[[c|]|e] fs']; cbn [fst snd].
    + destruct (returncode c =? 0).
      * split; [done |]. split; [done |]. cbn [events snd].
        rewrite !filter_app, !filter_cons.
        destruct (verbose config1), (verbose config2),
          (nonempty (str_strip E (stdout c))); reflexivity.
      * split; [done |]. split; [done |]. cbn [events snd].
        rewrite !handle_error_run. cbn [events snd].
        rewrite !filter_app, !filter_cons.
        destruct (verbose config1), (verbose config2), (nonempty (stderr c));
          reflexivity.
    + split; [done |]. split; [done |]. cbn [events snd].
      rewrite !filter_app, !filter_cons.
      destruct (verbose config1), (verbose config2); reflexivity.
    + split; [done |]. split; [done |]. cbn [events snd].
      rewrite !filter_app, !filter_cons.
      destruct (verbose config1), (verbose config2); reflexivity.
Qed.

Lemma execute_verbose_only_prints_witness :
  outcome (execute npm_windows_host windows_config (CmdStr "npm ci") None ∅)
  = outcome (execute npm_windows_host
               {| dry_run := false; verbose := true; is_windows := true |}
               (CmdStr "npm ci") None ∅).
Proof.
  apply (execute_verbose_only_prints npm_windows_host windows_config
           {| dry_run := false; verbose := true; is_windows := true |});
    reflexivity.
Defined.

(** ** Error reports *)

Lemma str_app_nil_r s : s +:+ "" = s.
Proof. induction s as [|a s IH]; [reflexivity |]. by rewrite append_cons, IH. Qed.

Lemma str_app_assoc s t u : (s +:+ t) +:+ u = s +:+ t +:+ u.
Proof. induction s as [|a s IH]; [reflexivity |]. by rewrite !append_cons, IH. Qed.

Lemma rev_app_spec s t : String.rev_app s t = String.rev s +:+ t.
Proof.
  unfold String.rev. revert t. induction s as [|a s IH]; intros t; [reflexivity |].
  cbn [String.rev_app]. rewrite (IH (String a t)), (IH (String a "")).
  by rewrite str_app_assoc.
Qed.

Lemma rev_cons a s : String.rev (String a s) = String.rev s +:+ String a "".
Proof. unfold String.rev at 1. cbn [String.rev_app]. apply rev_app_spec. Qed.

Lemma has_char_app c s t : has_char c (s +:+ t) = has_char c s || has_char c t.
Proof.
  induction s as [|a s IH]; [reflexivity |].
  rewrite append_cons. cbn [has_char]. by rewrite IH, orb_assoc.
Qed.

Lemma last_line_go_spec s cur :
  has_char "010" (String.rev cur) = false →
  has_char "010" (last_line_go cur s) = false ∧
  ∃ pre, String.rev cur +:+ s = pre +:+ last_line_go cur s ∧
         (pre = "" ∨ ∃ pre', pre = pre' +:+ LF).
Proof.
  revert cur. induction s as [|a s IH]; intros cur Hcur; cbn [last_line_go].
  - split; [exact Hcur |]. exists "". split; [by rewrite str_app_nil_r | by left].
  - destruct (Ascii.eqb a "010") eqn:Ha.
    + apply Ascii.eqb_eq in Ha as ->.
      destruct (IH "" eq_refl) as [Hno (pre & Heq & Hpre)].
      split; [exact Hno |]. change (String.rev "" +:+ s) with s in Heq.
      exists (String.rev cur +:+ LF +:+ pre). split.
      * rewrite !str_app_assoc, <- Heq. reflexivity.
      * right. destruct Hpre as [-> | [pre' ->]].
        -- exists (String.rev cur). by rewrite str_app_nil_r.
        -- exists (String.rev cur +:+ LF +:+ pre'). by rewrite !str_app_assoc.
    + destruct (IH (String a cur)) as [Hno (pre & Heq & Hpre)].
      { rewrite rev_cons, has_char_app, Hcur. cbn. by rewrite Ha. }
      split; [exact Hno |]. exists pre. split; [| exact Hpre].
      rewrite <- Heq, rev_cons, str_app_assoc. reflexivity.
Qed.

(** X7. A child that exits with a status other than 0 makes [execute]
    return false after a report: the failed command, then with the verbose
    flag the status and the whole error output as [str.strip()] leaves it,
    and without it one line only, the last line of that stripped text.
    Whatever [str.strip()] returns, that last line never holds a line feed
    and is what follows the last line feed of the text. *)
Theorem execute_reports_failure (E : Env) (config : RuntimeConfig)
    (cmd : command) (cwd : option string) (fs fs' : FS) (c : completed) :
  dry_run config = false →
  spawn E (_prepare_command config cmd) (is_windows config) cwd fs
  = (Ok (Exited c), fs') →
  returncode c ≠ 0 →
  execute E config cmd cwd fs
  = (Ok false, fs',
     (if verbose config then [EPrint ("  Running: " +:+ cmd_display cmd)] else [])
     ++ ESpawn (_prepare_command config cmd) (is_windows config) cwd
     :: EPrint ("  ❌ Command failed: " +:+ cmd_display cmd)
     :: (if verbose config
         then EPrint ("  Error code: " +:+ pretty (returncode c))
              :: (if nonempty (stderr c)
                  then [EPrint ("  Error: " +:+ str_strip E (stderr c))] else [])
         else if nonempty (stderr c)
              then [EPrint ("  Error: " +:+ last_line (str_strip E (stderr c)))] else [])) ∧
  has_char "010" (last_line (str_strip E (stderr c))) = false ∧
  ∃ before, str_strip E (stderr c) = before +:+ last_line (str_strip E (stderr c)) ∧
            (before = "" ∨ ∃ lines, before = lines +:+ LF).
Proof.
  intros Hdry Hspawn Hrc. split.
  - rewrite execute_wet_run by done. cbv zeta. rewrite Hspawn. cbn [fst snd].
    apply Z.eqb_neq in Hrc. rewrite Hrc, handle_error_run. reflexivity.
  - apply (last_line_go_spec (str_strip E (stderr c)) "" eq_refl).
Qed.

Lemma execute_reports_failure_witness :
  execute (windows_host [("cargo fetch", cargo_failure)]) windows_config
    (CmdList ["cargo"; "fetch"]) None ∅
  = (Ok false, ∅,
     [ESpawn (CmdStr "cargo fetch") true None;
      EPrint "  ❌ Command failed: cargo fetch";
      EPrint "  Error: error: no matching package"]).
Proof.
  rewrite (proj1 (execute_reports_failure
                    (windows_host [("cargo fetch", cargo_failure)]) windows_config
                    (CmdList ["cargo"; "fetch"]) None ∅ ∅ cargo_failure
                    eq_refl eq_refl ltac:(discriminate))).
  vm_compute. reflexivity.
Defined.

(** ** Probes *)

(** X8. The capability probe answers with a boolean and never raises: it
    is true exactly when [<tool> --version], run through the shell, exits
    with status 0.  "Not found" and a non-zero status are the same answer,
    false.  The probe is one call of [subprocess.run], whose file system
    it hands on, and it does not look at the configuration: it runs in
    dry-run mode too. *)
Theorem has_command_answers_exit_zero (E : Env) (tool : string) (fs : FS) :
  let started := shell E [tool +:+ " --version"] None fs in
  _has_command E tool fs
  = (Ok (match started.1 with
         | Exited c => returncode c =? 0
         | NoSuchExecutable => false
         end), started.2,
     [ESpawn (CmdStr (tool +:+ " --version")) true None]).
Proof.
  cbv zeta.
  unfold _has_command, try_except, bind, subprocess_run, spawn, ret. cbn [popen_args].
  destruct (shell E [tool +:+ " --version"] None fs) as [[c|] fs']; cbn [fst snd];
    [destruct (returncode c =? 0) |]; reflexivity.
Qed.

(** ** Strategies without their tool, and strategies without work *)

(** X9. A strategy whose tool is missing fails after one line of guidance
    and hands nothing to [execute]: Rust setup without cargo, Flutter setup
    without flutter, Node setup when no package manager answers. *)
Theorem setup_without_tool (E : Env) (config : RuntimeConfig) (fs : FS) :
  (outcome (_has_command E "cargo" fs) = Ok false →
   setup_rust E config fs
   = (Ok false, final_fs (_has_command E "cargo" fs),
      [ EPrint "🦀 Rust setup...";
        ESpawn (CmdStr "cargo --version") true None;
        EPrint "  ❌ Cargo not found. Install from https://rustup.rs/" ])) ∧
  (outcome (_has_command E "flutter" fs) = Ok false →
   setup_flutter E config fs
   = (Ok false, final_fs (_has_command E "flutter" fs),
      [ EPrint "🐦 Flutter setup...";
        ESpawn (CmdStr "flutter --version") true None;
        EPrint "  ❌ Flutter not found. Install from https://flutter.dev/" ])) ∧
  (outcome (get_package_manager E fs) = Ok None →
   setup_node E config fs
   = (Ok false, final_fs (get_package_manager E fs),
      EPrint "📦 Node.js setup..." :: events (get_package_manager E fs)
      ++ [EPrint "  ❌ No package manager found. Install Node.js from https://nodejs.org/"]) ∧
   Forall (λ e, is_print e ∨ is_probe e) (events (setup_node E config fs))).
Proof.
  split; [| split].
  - intros Hprobe. unfold setup_rust. rewrite bind_print.
    rewrite (bind_Ok _ _ _ _ _ _ (run_Ok _ _ Hprobe)), has_command_events.
    reflexivity.
  - intros Hprobe. unfold setup_flutter. rewrite bind_print.
    rewrite (bind_Ok _ _ _ _ _ _ (run_Ok _ _ Hprobe)), has_command_events.
    reflexivity.
  - intros Hnone.
    assert (setup_node E config fs
            = (Ok false, final_fs (get_package_manager E fs),
               EPrint "📦 Node.js setup..." :: events (get_package_manager E fs)
               ++ [EPrint "  ❌ No package manager found. Install Node.js from https://nodejs.org/"]))
      as Hrun.
    { unfold setup_node. rewrite bind_print.
      rewrite (bind_Ok _ _ _ _ _ _ (run_Ok _ _ Hnone)). reflexivity. }
    split; [exact Hrun |]. rewrite Hrun. cbn [events snd].
    constructor; [by left |]. apply Forall_app. split; [| repeat constructor; by left].
    apply Forall_forall. intros e He. right.
    apply get_package_manager_events, list_elem_of_In in He.
    destruct He as [<- | [<- | [<- | []]]]; apply is_probe_has_command.
Qed.

Lemma setup_without_tool_witness :
  setup_rust (unix_host []) unix_config ∅
  = (Ok false, ∅,
     [ EPrint "🦀 Rust setup...";
       ESpawn (CmdStr "cargo --version") true None;
       EPrint "  ❌ Cargo not found. Install from https://rustup.rs/" ]).
Proof.
  apply (setup_without_tool (unix_host []) unix_config ∅). reflexivity.
Defined.

Lemma present_false (fs : FS) p : fs !! p = None → present fs p = false.
Proof. apply present_None. Qed.

Lemma present_true (fs : FS) p : is_Some (fs !! p) → present fs p = true.
Proof. intros Hp. unfold present. by rewrite bool_decide_eq_true_2. Qed.

(** X10. A strategy with nothing to do succeeds without printing,
    reading or running anything: the git hooks without
    [.pre-commit-config.yaml], the dependency installation with neither
    [requirements.txt] nor [pyproject.toml] (a project detected by its
    [setup.py] alone gets no installation), Python formatting without the
    interpreter of the virtual environment, Node formatting without
    [package.json] and Prettier configuration, and the formatting phase
    when none of python, node and flutter was detected. *)
Theorem nothing_to_do (E : Env) (config : RuntimeConfig) (fs : FS) :
  (fs !! ".pre-commit-config.yaml" = None →
   setup_git_hooks E config fs = (Ok true, fs, [])) ∧
  (fs !! "requirements.txt" = None → fs !! "pyproject.toml" = None →
   ∀ pip, _install_python_deps E config pip fs = (Ok true, fs, [])) ∧
  (fs !! venv_path config KPython = None →
   _format_python E config fs = (Ok true, fs, [])) ∧
  (fs !! "package.json" = None →
   fs !! ".prettierrc" = None → fs !! "prettier.config.js" = None →
   fs !! ".prettierrc.json" = None →
   _format_node E config fs = (Ok true, fs, [])) ∧
  (∀ detected,
     "python" ∉ detected → "node" ∉ detected → "flutter" ∉ detected →
     format_all E config detected fs = (Ok true, fs, [])).
Proof.
  repeat apply conj.
  - intros Hp. unfold setup_git_hooks.
    by rewrite bind_path_exists, (present_false _ _ Hp).
  - intros Hr Hp pip. unfold _install_python_deps.
    by rewrite bind_path_exists, (present_false _ _ Hr), bind_path_exists,
      (present_false _ _ Hp).
  - intros Hp. unfold _format_python. cbv zeta.
    by rewrite bind_path_exists, (present_false _ _ Hp).
  - intros Hp H1 H2 H3. unfold _format_node, _has_npm_format_script.
    rewrite bind_assoc, bind_path_exists, (present_false _ _ Hp). cbn [negb].
    rewrite bind_ret_l.
    rewrite (bind_Ok _ _ _ _ _ _ (any_exists_run prettier_configs fs)).
    unfold prettier_configs. cbn [existsb].
    by rewrite (present_false _ _ H1), (present_false _ _ H2), (present_false _ _ H3).
  - intros detected Hp Hn Hf. unfold format_all.
    by rewrite !bool_decide_eq_false_2.
Qed.

Lemma nothing_to_do_witness :
  format_all (unix_host []) unix_config ["rust"; "git"]
    (files [("Cargo.toml", File ""); (".git", Dir)])
  = (Ok true, files [("Cargo.toml", File ""); (".git", Dir)], []).
Proof.
  apply (nothing_to_do (unix_host []) unix_config);
    apply (bool_decide_unpack _); vm_compute; exact I.
Defined.

(** X11. The dependency installation looks at [requirements.txt] first:
    when it exists, [pip install -r requirements.txt] is what is run and
    the editable install of [pyproject.toml] is not attempted, whether or
    not that file exists too; the editable install is run only when
    [requirements.txt] is absent and [pyproject.toml] exists. *)
Theorem requirements_before_pyproject (E : Env) (config : RuntimeConfig)
    (pip : string) (fs : FS) :
  let from_requirements := CmdList [pip; "install"; "-r"; "requirements.txt"] in
  let editable := CmdList [pip; "install"; "-e"; "."] in
  let run := _install_python_deps E config pip fs in
  (is_Some (fs !! "requirements.txt") →
   run = (outcome (execute E config from_requirements None fs),
          final_fs (execute E config from_requirements None fs),
          EPrint "  Installing requirements.txt..."
          :: events (execute E config from_requirements None fs)) ∧
   ¬ attempted config editable (events run)) ∧
  (fs !! "requirements.txt" = None → is_Some (fs !! "pyproject.toml") →
   run = (outcome (execute E config editable None fs),
          final_fs (execute E config editable None fs),
          EPrint "  Installing pyproject.toml..."
          :: events (execute E config editable None fs))).
Proof.
  cbv zeta. split.
  - intros Hr.
    assert (_install_python_deps E config pip fs
            = (outcome (execute E config
                          (CmdList [pip; "install"; "-r"; "requirements.txt"]) None fs),
               final_fs (execute E config
                           (CmdList [pip; "install"; "-r"; "requirements.txt"]) None fs),
               EPrint "  Installing requirements.txt..."
               :: events (execute E config
                            (CmdList [pip; "install"; "-r"; "requirements.txt"])
                            None fs))) as Hrun.
    { unfold _install_python_deps.
      by rewrite bind_path_exists, (present_true _ _ Hr), bind_print. }
    split; [exact Hrun |]. rewrite Hrun. cbn [events snd]. unfold attempted.
    rewrite elem_of_cons. intros [Hprint | Hexec].
    + unfold exec_mark in Hprint. destruct (dry_run config); [| discriminate].
      vm_compute in Hprint. discriminate.
    + revert Hexec. apply execute_not_attempted.
      unfold exec_mark, _prepare_command, cmd_display. cbn [join].
      destruct (dry_run config); [| destruct (is_windows config)].
      * intros [= Heq]. do 2 apply (inj _) in Heq. vm_compute in Heq. discriminate.
      * intros [= Heq]. apply (inj _) in Heq. vm_compute in Heq. discriminate.
      * intros Heq. injection Heq. intros. discriminate.
  - intros Hr Hp. unfold _install_python_deps.
    by rewrite bind_path_exists, (present_false _ _ Hr), bind_path_exists,
      (present_true _ _ Hp), bind_print.
Qed.

Lemma requirements_before_pyproject_witness :
  let fs := files [("requirements.txt", File "requests"); ("pyproject.toml", File "")] in
  ¬ attempted dry_config (CmdList [".venv/bin/pip"; "install"; "-e"; "."])
      (events (_install_python_deps (unix_host []) dry_config ".venv/bin/pip" fs)).
Proof.
  cbv zeta.
  apply (requirements_before_pyproject (unix_host []) dry_config ".venv/bin/pip").
  vm_compute. eauto.
Defined.



(** ** Formatting *)

Lemma bind_ret_map {A B} (m : M A) (f : A → B) fs :
  bind m (λ a, ret (f a)) fs
  = (match outcome (m fs) with Ok a => Ok (f a) | Raise e => Raise e end,
     final_fs (m fs), events (m fs)).
Proof.
  unfold bind, ret. destruct (m fs) as [[[a|e] fs1] ev1]; [| reflexivity].
  cbn. by rewrite app_nil_r.
Qed.

Lemma format_flutter_run E config fs :
  _format_flutter E config fs
  = (outcome (execute E config (CmdStr "dart format .") None fs),
     final_fs (execute E config (CmdStr "dart format .") None fs),
     EPrint "✨ Formatting Dart..."
     :: events (execute E config (CmdStr "dart format .") None fs)).
Proof. unfold _format_flutter. by rewrite bind_print. Qed.

(** X12. The formatting phase is not cut short: whenever [format_all]
    returns at all with flutter among the detected ecosystems, the Dart
    formatter was handed to [execute], whatever the Python and Node
    formatters returned before it; and the phase returns true only if
    the first formatter, the Python one, returned true when it applied. *)
Theorem format_all_reaches_last_formatter (E : Env) (config : RuntimeConfig)
    (detected : list string) (fs : FS) (formatted : bool) :
  "flutter" ∈ detected →
  outcome (format_all E config detected fs) = Ok formatted →
  attempted config (CmdStr "dart format .") (events (format_all E config detected fs)) ∧
  (formatted = true → "python" ∈ detected →
   outcome (_format_python E config fs) = Ok true).
Proof.
  intros Hflutter Hrun. unfold format_all in *. cbv zeta in *.
  rewrite (bool_decide_eq_true_2 _ Hflutter) in *.
  set (python := if bool_decide ("python" ∈ detected)
                 then ok <- _format_python E config;; ret (true && ok)
                 else ret true) in *.
  rewrite outcome_bind in Hrun. rewrite events_bind.
  destruct (outcome (python fs)) as [ok1|] eqn:Hpython; [| discriminate].
  set (fs1 := final_fs (python fs)) in *.
  set (node := if bool_decide ("node" ∈ detected)
               then ok <- _format_node E config;; ret (ok1 && ok)
               else ret ok1) in *.
  rewrite outcome_bind in Hrun. rewrite events_bind.
  destruct (outcome (node fs1)) as [ok2|] eqn:Hnode; [| discriminate].
  set (fs2 := final_fs (node fs1)) in *.
  change (λ success : bool, ret success) with (@ret bool) in *.
  rewrite bind_ret_r, bind_ret_map, format_flutter_run in *.
  cbn [outcome events final_fs fst snd] in *.
  destruct (outcome (execute E config (CmdStr "dart format .") None fs2))
    as [ok3|] eqn:Hdart; [| discriminate].
  injection Hrun as <-.
  split.
  - unfold attempted. rewrite !elem_of_app, elem_of_cons.
    right. right. right. apply execute_mark.
  - intros Hall Hp.
    apply andb_true_iff in Hall as [Hok2 _]. subst ok2.
    assert (ok1 = true) as ->.
    { subst node. destruct (bool_decide ("node" ∈ detected)).
      - rewrite outcome_bind in Hnode.
        destruct (outcome (_format_node E config fs1)) as [b|]; [| discriminate].
        cbn in Hnode. injection Hnode as Hnode.
        by apply andb_true_iff in Hnode as [-> _].
      - cbn in Hnode. by injection Hnode. }
    subst python. rewrite (bool_decide_eq_true_2 _ Hp) in Hpython.
    rewrite outcome_bind in Hpython.
    destruct (outcome (_format_python E config fs)) as [[]|]; done.
Qed.

Lemma format_all_reaches_last_formatter_witness :
  let fs := files [(".venv/bin/python", File ""); ("pubspec.yaml", File "")] in
  outcome (format_all ruff_failing_host unix_config ["python"; "flutter"] fs) = Ok false ∧
  attempted unix_config (CmdStr "dart format .")
    (events (format_all ruff_failing_host unix_config ["python"; "flutter"] fs)).
Proof.
  cbv zeta. split; [vm_compute; reflexivity |].
  eapply (format_all_reaches_last_formatter ruff_failing_host unix_config
            ["python"; "flutter"]).
  - apply (bool_decide_unpack _). vm_compute. exact I.
  - vm_compute. reflexivity.
Defined.

Lemma has_python_package_events E python_exe package fs :
  events (_has_python_package E python_exe package fs)
  = [ESpawn (CmdList [python_exe; "-c"; "import " +:+ package]) false None].
Proof.
  unfold _has_python_package, try_except, bind, ret.
  pose proof (subprocess_run_events E
                (CmdList [python_exe; "-c"; "import " +:+ package]) false None fs)
    as Hev.
  destruct (subprocess_run E _ false None fs) as [[[c|e] fs'] ev];
    cbn in Hev; subst ev; [reflexivity |].
  destruct e as [| | [] | | | | |]; reflexivity.
Qed.

(** X13. Python formatting takes the first formatter that is installed,
    ruff before black: when the ruff probe succeeds, ruff is run and black
    is not even probed; black is run when the ruff probe fails and the
    black probe succeeds. *)
Theorem ruff_before_black (E : Env) (config : RuntimeConfig) (fs : FS) :
  let python := venv_path config KPython in
  let ruff := _has_python_package E python "ruff" fs in
  let black := _has_python_package E python "black" (final_fs ruff) in
  let run := _format_python E config fs in
  is_Some (fs !! python) →
  (outcome ruff = Ok true →
   let format := execute E config (CmdList [python; "-m"; "ruff"; "format"; "."])
                   None (final_fs ruff) in
   run = (outcome format, final_fs format,
          events ruff ++ EPrint "✨ Formatting with ruff..." :: events format) ∧
   ESpawn (CmdList [python; "-c"; "import black"]) false None ∉ events run) ∧
  (outcome ruff = Ok false → outcome black = Ok true →
   let format := execute E config (CmdList [python; "-m"; "black"; "."])
                   None (final_fs black) in
   run = (outcome format, final_fs format,
          events ruff ++ events black
          ++ EPrint "✨ Formatting with black..." :: events format)).
Proof.
  intros python ruff black run Hvenv. split.
  - intros Hruff format.
    assert (run = (outcome format, final_fs format,
                   events ruff ++ EPrint "✨ Formatting with ruff..." :: events format))
      as Hrun.
    { unfold run, _format_python. cbv zeta. fold python.
      rewrite bind_path_exists, (present_true _ _ Hvenv). cbn [negb first_formatter].
      rewrite (bind_Ok _ _ _ _ _ _ (run_Ok _ _ Hruff)). fold ruff.
      by rewrite bind_print. }
    split; [exact Hrun |]. rewrite Hrun. cbn [events snd].
    unfold ruff. rewrite has_python_package_events.
    rewrite elem_of_app, list_elem_of_singleton, elem_of_cons.
    intros [Hprobe | [Hprint | Hformat]]; [| discriminate |].
    + injection Hprobe as Hprobe. vm_compute in Hprobe. discriminate.
    + apply execute_spawns in Hformat as [Hdry Hmark]; [| exact I].
      unfold exec_mark, _prepare_command in Hmark. rewrite Hdry in Hmark.
      destruct (is_windows config); [discriminate |].
      injection Hmark. intros. discriminate.
  - intros Hruff Hblack format.
    unfold run, _format_python. cbv zeta. fold python.
    rewrite bind_path_exists, (present_true _ _ Hvenv). cbn [negb first_formatter].
    rewrite (bind_Ok _ _ _ _ _ _ (run_Ok _ _ Hruff)). fold ruff.
    rewrite (bind_Ok _ _ _ _ _ _ (run_Ok _ _ Hblack)). fold black.
    rewrite bind_print. cbn [outcome events final_fs fst snd].
    reflexivity.
Qed.

Lemma ruff_before_black_witness :
  let fs := files [(".venv/bin/python", File "")] in
  ESpawn (CmdList [".venv/bin/python"; "-c"; "import black"]) false None
  ∉ events (_format_python ruff_failing_host unix_config fs).
Proof.
  cbv zeta.
  apply (ruff_before_black ruff_failing_host unix_config
           (files [(".venv/bin/python", File "")])).
  - vm_compute. eauto.
  - vm_compute. reflexivity.
Defined.

(** X14. For a [package.json] that [json.loads] turns into an object, the
    format-script check reads the file (in dry-run mode too: it has no
    configuration), leaves the file system alone and answers by the
    [scripts] member: false when there is none, membership of the key
    [format] when it is an object, of the string [format] when it is an
    array, a substring test when it is a string, and a [TypeError] when it
    is null, a boolean or a number. *)
Theorem format_script_lookup (E : Env) (fs : FS) (text : string)
    (members : list (string * json)) :
  fs !! "package.json" = Some (File text) →
  json_loads E text = Some (JObj members) →
  _has_npm_format_script E fs
  = (match dict_get "scripts" members with
     | None => Ok false
     | Some (JObj scripts) => Ok (bool_decide ("format" ∈ scripts.*1))
     | Some (JArr items) => Ok (existsb (json_eq_str "format") items)
     | Some (JStr s) => Ok (contains "format" s)
     | Some _ => Raise TypeError
     end, fs, [ERead "package.json"]).
Proof.
  intros Hfile Hjson. unfold _has_npm_format_script.
  rewrite bind_path_exists, present_true by (rewrite Hfile; eauto). cbn [negb].
  unfold try_except, bind, read_text, loads, json_get, json_in, ret, raise.
  rewrite Hfile, Hjson.
  destruct (dict_get "scripts" members) as [[]|]; reflexivity.
Qed.

Lemma format_script_lookup_witness :
  _has_npm_format_script (documents_host [(package_json_text, package_json_value)])
    (files [("package.json", File package_json_text)])
  = (Ok true, files [("package.json", File package_json_text)],
     [ERead "package.json"]).
Proof.
  apply (format_script_lookup
           (documents_host [(package_json_text, package_json_value)])
           (files [("package.json", File package_json_text)])
           package_json_text
           [("scripts", JObj [("format", JStr "prettier --write .")])]);
    reflexivity.
Defined.




(** ** Node setup *)

(** X18. When the chosen package manager is not npm, or there is no
    [package-lock.json], Node setup runs [<manager> install] directly:
    [npm ci] is not attempted, and the result of the strategy is the
    result of that install. *)
Theorem generic_install_directly (E : Env) (config : RuntimeConfig) (fs : FS)
    (pm : string) :
  let chosen := get_package_manager E fs in
  let install := execute E config (CmdStr (pm +:+ " install")) None (final_fs chosen) in
  let run := setup_node E config fs in
  outcome chosen = Ok (Some pm) →
  pm ≠ "npm" ∨ final_fs chosen !! "package-lock.json" = None →
  run = (outcome install, final_fs install,
         EPrint "📦 Node.js setup..." :: events chosen
         ++ EPrint ("  Using: " +:+ pm) :: events install) ∧
  ¬ attempted config (CmdStr "npm ci") (events run).
Proof.
  intros chosen install run Hpm Hdirect.
  assert (run = (outcome install, final_fs install,
                 EPrint "📦 Node.js setup..." :: events chosen
                 ++ EPrint ("  Using: " +:+ pm) :: events install)) as Hrun.
  { unfold run, setup_node. rewrite bind_print.
    rewrite (bind_Ok _ _ _ _ _ _ (run_Ok _ _ Hpm)). fold chosen.
    rewrite bind_print. cbn [outcome final_fs events fst snd].
    assert ((locked <- (if bool_decide (pm = "npm")
                        then path_exists "package-lock.json" else ret false);;
             clean <- (if locked then execute E config (CmdStr "npm ci") None
                       else ret false);;
             if clean then ret true
             else execute E config (CmdStr (pm +:+ " install")) None) (final_fs chosen)
            = install) as ->; [| reflexivity].
    destruct Hdirect as [Hne | Hnone].
    - rewrite bool_decide_eq_false_2 by done. by rewrite !bind_ret_l.
    - destruct (bool_decide (pm = "npm")).
      + rewrite bind_path_exists, (present_false _ _ Hnone). by rewrite bind_ret_l.
      + by rewrite !bind_ret_l. }
  split; [exact Hrun |]. rewrite Hrun. cbn [events snd]. unfold attempted.
  rewrite elem_of_cons, elem_of_app, elem_of_cons.
  intros [Hbanner | [Hchosen | [Husing | Hinstall]]].
  - unfold exec_mark in Hbanner. destruct (dry_run config);
      vm_compute in Hbanner; discriminate.
  - apply get_package_manager_events, list_elem_of_In in Hchosen.
    unfold exec_mark in Hchosen.
    destruct (dry_run config), Hchosen as [H | [H | [H | []]]];
      vm_compute in H; discriminate.
  - unfold exec_mark in Husing. destruct (dry_run config); [| discriminate].
    injection Husing as Husing.
    change ("  Using: " +:+ pm) with (String " " (String " " (String "U" ("sing: " +:+ pm))))
      in Husing.
    vm_compute in Husing. discriminate.
  - revert Hinstall. apply execute_not_attempted.
    assert (pm +:+ " install" ≠ "npm ci") as Hne.
    { intros Heq. apply (f_equal last_char) in Heq.
      rewrite last_char_app in Heq by done. vm_compute in Heq. discriminate. }
    unfold exec_mark. destruct (dry_run config); cbn [cmd_display _prepare_command].
    + intros [= Heq]. apply (inj _) in Heq. by symmetry in Heq.
    + intros [= Heq]. by symmetry in Heq.
Qed.

Lemma generic_install_directly_witness :
  let host := unix_host [("yarn --version", exit_with 0 "")] in
  let fs := files [("package.json", File "{}"); ("yarn.lock", File "")] in
  ¬ attempted unix_config (CmdStr "npm ci") (events (setup_node host unix_config fs)).
Proof.
  cbv zeta.
  apply (generic_install_directly (unix_host [("yarn --version", exit_with 0 "")])
           unix_config
           (files [("package.json", File "{}"); ("yarn.lock", File "")]) "yarn").
  - vm_compute. reflexivity.
  - left. discriminate.
Defined.

Lemma first_locked_choice E l fs :
  ∃ choice,
    outcome (first_locked E l fs) = Ok choice ∧
    (∀ pm, choice = Some pm →
           pm ∈ l.*2 ∧ last (events (first_locked E l fs)) = Some (probe_event pm)) ∧
    (length (events (first_locked E l fs)) ≤ length l)%nat.
Proof.
  revert fs. induction l as [|[lock_file pm] l IH]; intros fs.
  { exists None. split; [done |]. split; [done | cbn; lia]. }
  cbn [first_locked]. rewrite bind_path_exists.
  destruct (present fs lock_file).
  - rewrite outcome_bind, events_bind, has_command_ok, has_command_events.
    destruct (probe E fs pm).
    + exists (Some pm). split; [done |]. split; [| cbn; lia].
      intros pm' [= <-]. split; [by left | done].
    + destruct (IH (final_fs (_has_command E pm fs))) as (choice & Hc & Hlast & Hlen).
      exists choice. split; [exact Hc |]. split; [| cbn in *; lia].
      intros pm' Hpm'. destruct (Hlast pm' Hpm') as [Hin Hl].
      split; [by right |]. by rewrite last_app, Hl.
  - rewrite bind_ret_l. destruct (IH fs) as (choice & Hc & Hlast & Hlen).
    exists choice. split; [exact Hc |]. split; [| cbn in *; lia].
    intros pm' Hpm'. destruct (Hlast pm' Hpm') as [Hin Hl]. split; [by right | done].
Qed.

Lemma next_available_choice E l fs :
  ∃ choice,
    outcome (next_available E l fs) = Ok choice ∧
    (∀ pm, choice = Some pm →
           pm ∈ l ∧ last (events (next_available E l fs)) = Some (probe_event pm)) ∧
    (choice = None → ∀ pm, pm ∈ l → probe_event pm ∈ events (next_available E l fs)) ∧
    (length (events (next_available E l fs)) ≤ length l)%nat.
Proof.
  revert fs. induction l as [|tool l IH]; intros fs.
  { exists None. split; [done |]. split; [done |]. split; [| cbn; lia].
    intros _ pm Hpm. by apply elem_of_nil in Hpm. }
  cbn [next_available].
  rewrite outcome_bind, events_bind, has_command_ok, has_command_events.
  destruct (probe E fs tool).
  - exists (Some tool). split; [done |]. split; [| split; [done | cbn; lia]].
    intros pm' [= <-]. split; [by left | done].
  - destruct (IH (final_fs (_has_command E tool fs)))
      as (choice & Hc & Hlast & Hnone & Hlen).
    exists choice. split; [exact Hc |]. split; [| split; [| cbn in *; lia]].
    + intros pm' Hpm'. destruct (Hlast pm' Hpm') as [Hin Hl].
      split; [by right |]. by rewrite last_app, Hl.
    + intros Hn pm Hpm. apply elem_of_cons in Hpm as [-> | Hpm].
      * apply elem_of_app. left. by left.
      * apply elem_of_app. right. by apply Hnone.
Qed.

(** X16. [get_package_manager] never raises and probes at most six times.
    What it returns is npm, pnpm or yarn, and then its last action was the
    probe of that very manager; it returns none only after npm, pnpm and
    yarn have all been probed. *)
Theorem package_manager_was_probed (E : Env) (fs : FS) :
  ∃ choice,
    outcome (get_package_manager E fs) = Ok choice ∧
    (∀ pm, choice = Some pm →
           pm ∈ ["npm"; "pnpm"; "yarn"] ∧
           last (events (get_package_manager E fs))
           = Some (ESpawn (CmdStr (pm +:+ " --version")) true None)) ∧
    (choice = None →
     ∀ pm, pm ∈ ["npm"; "pnpm"; "yarn"] →
           ESpawn (CmdStr (pm +:+ " --version")) true None
           ∈ events (get_package_manager E fs)) ∧
    (length (events (get_package_manager E fs)) ≤ 6)%nat.
Proof.
  unfold get_package_manager. rewrite outcome_bind, events_bind.
  destruct (first_locked_choice E lock_files fs) as (locked & Hlocked & Hlast & Hlen).
  rewrite Hlocked. cbn [length lock_files] in Hlen. destruct locked as [pm|].
  - exists (Some pm). split; [done |]. cbn [events ret snd].
    rewrite app_nil_r. split; [| split; [done | lia]].
    intros pm' [= <-]. destruct (Hlast pm eq_refl) as [Hin Hl]. split; [| exact Hl].
    apply list_elem_of_In in Hin.
    destruct Hin as [<- | [<- | [<- | []]]]; repeat constructor.
  - destruct (next_available_choice E ["npm"; "pnpm"; "yarn"]
                (final_fs (first_locked E lock_files fs)))
      as (choice & Hc & Hlast' & Hnone & Hlen').
    exists choice. split; [exact Hc |]. rewrite length_app. cbn [length] in Hlen'.
    split; [| split; [| lia]].
    + intros pm Hpm. destruct (Hlast' pm Hpm) as [Hin Hl].
      split; [exact Hin |]. by rewrite last_app, Hl.
    + intros Hn pm Hpm. apply elem_of_app. right. by apply Hnone.
Qed.

(** ** The run as a whole *)

(** X20. The formatting phase follows the setup phase whatever the setup
    phase returned: after a failed setup the formatters of the detected
    ecosystems still run, and only then is the verdict printed: the
    success banner (with the activation hint when python was detected), or
    the failure banner (with the hint at [-v] unless the run is verbose
    already). *)
Theorem formatting_follows_setup (E : Env) (argv : list string) (fs : FS)
    (success formatted : bool) :
  let config := config_of E argv in
  let detected := detected_in fs in
  let setups := run_setups E config detected fs in
  let formats := format_all E config detected (final_fs setups) in
  ¬ help_requested argv → detected ≠ [] →
  outcome setups = Ok success → outcome formats = Ok formatted →
  events (main E argv fs)
  = EPrint "🔍 Detecting projects..."
    :: EPrint ("✅ Found: " +:+ join ", " detected)
    :: events setups ++ events formats
    ++ (if success && formatted then
          EPrint (LF +:+ "🎉 Setup complete!")
          :: (if bool_decide ("python" ∈ detected)
              then [EPrint ("💡 Activate: "
                            +:+ (if is_windows config then ".venv\Scripts\activate"
                                 else "source .venv/bin/activate"))]
              else [])
        else
          EPrint (LF +:+ "⚠️ Some steps failed.")
          :: (if verbose config then []
              else [EPrint "💡 Run with -v flag for detailed errors"])).
Proof.
  intros config detected setups formats Hhelp Hsome Hsetups Hformats.
  unfold main.
  rewrite (bind_Ok _ _ _ _ _ _ (parse_arguments_run E argv fs Hhelp)).
  rewrite bind_print, (bind_Ok _ _ _ _ _ _ (detect_languages_run fs)).
  cbn [events snd app]. fold detected config.
  destruct detected as [|lang rest] eqn:Hd; [done |].
  rewrite bind_print. cbn [events snd]. do 2 f_equal.
  rewrite (bind_Ok _ _ _ _ _ _ (run_Ok _ _ Hsetups)). fold setups.
  cbn [events snd]. f_equal.
  rewrite (bind_Ok _ _ _ _ _ _ (run_Ok _ _ Hformats)). fold formats.
  cbn [events snd]. f_equal.
  destruct (success && formatted).
  - rewrite bind_print. cbn [events snd]. f_equal.
    by destruct (bool_decide ("python" ∈ lang :: rest)).
  - rewrite bind_print. cbn [events snd]. f_equal.
    by destruct (verbose config).
Qed.

Lemma formatting_follows_setup_witness :
  let fs := files [("package.json", File package_json_text)] in
  EPrint "  [DRY] npm run format"
  ∈ events (main (documents_host [(package_json_text, package_json_value)])
              ["autofix.py"; "-n"] fs).
Proof.
  cbv zeta.
  rewrite (formatting_follows_setup
             (documents_host [(package_json_text, package_json_value)])
             ["autofix.py"; "-n"]
             (files [("package.json", File package_json_text)]) false true).
  - apply (bool_decide_unpack _). vm_compute. exact I.
  - unfold help_requested. apply (bool_decide_unpack _). vm_compute. exact I.
  - vm_compute. discriminate.
  - vm_compute. reflexivity.
  - vm_compute. reflexivity.
Defined.

(** *** The script itself never writes *)

Lemma frames_ret {A} (a : A) : frames (ret a).
Proof. by intros fs _. Qed.

Lemma frames_raise {A} e : frames (@raise A e).
Proof. by intros fs _. Qed.

Lemma frames_print s : frames (print s).
Proof. by intros fs _. Qed.

Lemma frames_path_exists p : frames (path_exists p).
Proof. by intros fs _. Qed.

Lemma frames_read_text p : frames (read_text p).
Proof. by intros fs _. Qed.

Lemma frames_bind {A B} (m : M A) (k : A → M B) :
  frames m → (∀ a, frames (k a)) → frames (bind m k).
Proof.
  intros Hm Hk fs. specialize (Hm fs). unfold bind.
  destruct (m fs) as [[[a|e] fs1] ev1]; cbn in *; [| exact Hm].
  specialize (Hk a fs1). destruct (k a fs1) as [[r fs2] ev2]; cbn in *.
  intros [H1 H2]%Forall_app. rewrite Hk by done. by apply Hm.
Qed.

Lemma frames_try {A} (m : M A) h :
  frames m → (∀ e k, h e = Some k → frames k) → frames (try_except m h).
Proof.
  intros Hm Hh fs. specialize (Hm fs). unfold try_except.
  destruct (m fs) as [[[a|e] fs1] ev1]; cbn in *; [exact Hm |].
  destruct (h e) as [k|] eqn:He; [| exact Hm].
  specialize (Hh e k He fs1). destruct (k fs1) as [[r fs2] ev2]; cbn in *.
  intros [H1 H2]%Forall_app. rewrite Hh by done. by apply Hm.
Qed.

Lemma frames_subprocess_run E cmd use_shell cwd :
  frames (subprocess_run E cmd use_shell cwd).
Proof.
  intros fs. rewrite subprocess_run_events. intros Hno.
  apply Forall_cons in Hno as [Hno _]. by destruct Hno.
Qed.

Lemma frames_py_any (ms : list (M bool)) : Forall frames ms → frames (py_any ms).
Proof.
  induction 1 as [|m ms Hm _ IH]; cbn; [apply frames_ret |].
  apply frames_bind; [exact Hm |]. intros []; [apply frames_ret | exact IH].
Qed.

Lemma frames_py_all (ms : list (M bool)) : Forall frames ms → frames (py_all ms).
Proof.
  induction 1 as [|m ms Hm _ IH]; cbn; [apply frames_ret |].
  apply frames_bind; [exact Hm |]. intros []; [exact IH | apply frames_ret].
Qed.

Section Frames.
Context (E : Env) (config : RuntimeConfig).

Local Ltac fstep :=
  first
    [ apply frames_ret
    | apply frames_raise
    | apply frames_print
    | apply frames_path_exists
    | apply frames_read_text
    | apply frames_subprocess_run
    | apply frames_bind; [| intros ?]
    | match goal with
      | |- frames (if ?b then _ else _) => destruct b
      | |- frames (match ?x with _ => _ end) => destruct x
      end ].

Local Ltac fhandler :=
  let e := fresh "e" in
  let k := fresh "k" in
  let He := fresh "He" in
  intros e k He; destruct e as [| | [] | | | | |]; try discriminate;
  injection He as <-; repeat fstep.

Lemma frames_execute cmd cwd : frames (execute E config cmd cwd).
Proof.
  unfold execute. destruct (dry_run config); [repeat fstep |].
  apply frames_try; [repeat fstep | unfold _handle_error; fhandler].
Qed.

Lemma frames_has_command tool : frames (_has_command E tool).
Proof. unfold _has_command. apply frames_try; [repeat fstep | fhandler]. Qed.

Lemma frames_has_python_package python_exe package :
  frames (_has_python_package E python_exe package).
Proof. unfold _has_python_package. apply frames_try; [repeat fstep | fhandler]. Qed.

Lemma frames_first_locked l : frames (first_locked E l).
Proof.
  induction l as [|[lock_file pm] rest IH]; cbn; [apply frames_ret |].
  repeat first [apply frames_has_command | exact IH | fstep].
Qed.

Lemma frames_next_available l : frames (next_available E l).
Proof.
  induction l as [|pm rest IH]; cbn; [apply frames_ret |].
  repeat first [apply frames_has_command | exact IH | fstep].
Qed.

Lemma frames_get_package_manager : frames (get_package_manager E).
Proof.
  unfold get_package_manager.
  repeat first [apply frames_first_locked | apply frames_next_available | fstep].
Qed.

Lemma frames_any_exists l : frames (py_any (map path_exists l)).
Proof.
  apply frames_py_any, Forall_map, Forall_forall.
  intros p _. apply frames_path_exists.
Qed.

Lemma frames_has_build_runner : frames (_has_build_runner config).
Proof.
  unfold _has_build_runner. apply frames_bind; [fstep |]. intros found.
  destruct (negb found || dry_run config); [fstep |].
  apply frames_try; [repeat fstep | fhandler].
Qed.

Lemma frames_has_npm_format_script : frames (_has_npm_format_script E).
Proof.
  unfold _has_npm_format_script. apply frames_bind; [fstep |]. intros found.
  destruct (negb found); [fstep |].
  apply frames_try; [unfold loads, json_get, json_in; repeat fstep | fhandler].
Qed.

Lemma frames_first_formatter venv_python l :
  frames (first_formatter E config venv_python l).
Proof.
  induction l as [|[name cmd] rest IH]; cbn; [apply frames_ret |].
  repeat first [apply frames_execute | apply frames_has_python_package
               | exact IH | fstep].
Qed.

Lemma frames_run_setups detected : frames (run_setups E config detected).
Proof.
  unfold run_setups, applicable_setups. apply frames_py_all, Forall_forall.
  intros m Hm. apply list_elem_of_omap in Hm as (p & _ & Hp).
  unfold setup_methods in Hp. cbn in Hp.
  repeat case_bool_decide; simplify_eq.
  - unfold setup_python, _install_python_deps.
    repeat first [apply frames_execute | fstep].
  - unfold setup_node.
    repeat first [apply frames_execute | apply frames_get_package_manager | fstep].
  - unfold setup_rust.
    repeat first [apply frames_execute | apply frames_has_command | fstep].
  - unfold setup_flutter.
    repeat first [apply frames_execute | apply frames_has_command
                 | apply frames_has_build_runner | fstep].
  - unfold setup_git_hooks, _get_python_executable.
    repeat first [apply frames_execute | fstep].
Qed.

Lemma frames_format_all detected : frames (format_all E config detected).
Proof.
  unfold format_all, _format_python, _format_node, _format_flutter.
  repeat first [apply frames_execute | apply frames_first_formatter
               | apply frames_has_npm_format_script | apply frames_any_exists
               | fstep].
Qed.
End Frames.

Lemma frames_main E argv : frames (main E argv).
Proof.
  unfold main. apply frames_bind.
  - unfold parse_arguments. destruct (bool_decide _ || bool_decide _);
      repeat first [apply frames_bind; [| intros ?] | apply frames_print
                   | apply frames_raise | apply frames_ret].
  - intros config. apply frames_bind; [apply frames_print |]. intros _.
    apply frames_bind.
    { intros fs. by rewrite detect_languages_run. }
    intros detected. destruct detected as [|lang rest]; [apply frames_print |].
    apply frames_bind; [apply frames_print |]. intros _.
    apply frames_bind; [apply frames_run_setups |]. intros success.
    apply frames_bind; [apply frames_format_all |]. intros formatted.
    destruct (success && formatted).
    + apply frames_bind; [apply frames_print |]. intros _.
      destruct (bool_decide _); [apply frames_print | apply frames_ret].
    + apply frames_bind; [apply frames_print |]. intros _.
      apply frames_bind; [| intros _; apply frames_raise].
      destruct (negb _); [apply frames_print | apply frames_ret].
Qed.

(** X15. The script never writes to the working directory itself: in a
    run that makes no call of [subprocess.run], the file system at the end
    is the one at the start, whatever the arguments, the host and the
    files.  Every change of the working directory is the doing of a child
    process. *)
Theorem working_directory_untouched_without_child (E : Env) (argv : list string)
    (fs : FS) :
  Forall (λ e, ¬ is_spawn e) (events (main E argv fs)) →
  final_fs (main E argv fs) = fs.
Proof. apply frames_main. Qed.

Lemma working_directory_untouched_without_child_witness :
  let fs := files [("requirements.txt", File "requests")] in
  final_fs (main python_host ["autofix.py"; "--dry-run"] fs) = fs.
Proof.
  cbv zeta.
  apply (working_directory_untouched_without_child python_host
           ["autofix.py"; "--dry-run"]).
  vm_compute. repeat constructor; by intros [].
Defined.

(** ** Python setup and the git hooks *)

(** X21. When the virtual environment is absent and its creation fails,
    Python setup stops there with false: no dependency is installed.  When
    the creation succeeds, or the directory was there, the result of the
    strategy is the result of the dependency installation, run with the
    pip of the virtual environment. *)
Theorem python_setup_stops_without_venv (E : Env) (config : RuntimeConfig) (fs : FS) :
  let create := execute E config (venv_create_cmd E) None fs in
  let pip := venv_path config KPip in
  (fs !! ".venv" = None → outcome create = Ok false →
   setup_python E config fs
   = (Ok false, final_fs create,
      EPrint "🐍 Python setup..." :: EPrint "  Creating virtual environment..."
      :: events create)) ∧
  (fs !! ".venv" = None → outcome create = Ok true →
   setup_python E config fs
   = (outcome (_install_python_deps E config pip (final_fs create)),
      final_fs (_install_python_deps E config pip (final_fs create)),
      EPrint "🐍 Python setup..." :: EPrint "  Creating virtual environment..."
      :: events create ++ events (_install_python_deps E config pip (final_fs create)))) ∧
  (is_Some (fs !! ".venv") →
   setup_python E config fs
   = (outcome (_install_python_deps E config pip fs),
      final_fs (_install_python_deps E config pip fs),
      EPrint "🐍 Python setup..." :: events (_install_python_deps E config pip fs))).
Proof.
  cbv zeta. split; [| split].
  - intros Habsent Hcreate. unfold setup_python. cbv zeta.
    rewrite bind_print, bind_path_exists, (present_false _ _ Habsent). cbn [negb].
    rewrite bind_assoc, bind_print.
    rewrite (bind_Ok _ _ _ _ _ _ (run_Ok _ _ Hcreate)). cbn [negb].
    cbn [outcome final_fs events fst snd ret]. by rewrite app_nil_r.
  - intros Habsent Hcreate. unfold setup_python. cbv zeta.
    rewrite bind_print, bind_path_exists, (present_false _ _ Habsent). cbn [negb].
    rewrite bind_assoc, bind_print.
    rewrite (bind_Ok _ _ _ _ _ _ (run_Ok _ _ Hcreate)). cbn [negb].
    reflexivity.
  - intros Hvenv. unfold setup_python. cbv zeta.
    rewrite bind_print, bind_path_exists, (present_true _ _ Hvenv). cbn [negb].
    rewrite bind_ret_l. reflexivity.
Qed.

Lemma python_setup_stops_without_venv_witness :
  let fs := files [("requirements.txt", File "requests")] in
  setup_python (unix_host []) unix_config fs
  = (Ok false, fs,
     [ EPrint "🐍 Python setup..."; EPrint "  Creating virtual environment...";
       ESpawn (CmdList ["/usr/bin/python3"; "-m"; "venv"; ".venv"]) false None;
       EPrint "  ❌ Command not found: ['/usr/bin/python3', '-m', 'venv', '.venv']" ]).
Proof.
  cbv zeta.
  rewrite (proj1 (python_setup_stops_without_venv (unix_host []) unix_config
                    (files [("requirements.txt", File "requests")])));
    vm_compute; reflexivity.
Defined.

(** X22. With a [.pre-commit-config.yaml] the hooks are installed by
    [<python> -m pre_commit install], where the interpreter is the one of
    the virtual environment when that file exists and the interpreter
    running the script otherwise; the result is the result of that
    command. *)
Theorem git_hooks_interpreter (E : Env) (config : RuntimeConfig) (fs : FS) :
  is_Some (fs !! ".pre-commit-config.yaml") →
  let python :=
    if bool_decide (is_Some (fs !! venv_path config KPython))
    then venv_path config KPython else sys_executable E in
  let install := execute E config (CmdList [python; "-m"; "pre_commit"; "install"])
                   None fs in
  setup_git_hooks E config fs
  = (outcome install, final_fs install, EPrint "🔗 Pre-commit setup..." :: events install) ∧
  attempted config (CmdList [python; "-m"; "pre_commit"; "install"])
    (events (setup_git_hooks E config fs)).
Proof.
  intros Hconfig python install.
  assert (setup_git_hooks E config fs
          = (outcome install, final_fs install,
             EPrint "🔗 Pre-commit setup..." :: events install)) as Hrun.
  { unfold setup_git_hooks, _get_python_executable.
    rewrite bind_path_exists, (present_true _ _ Hconfig). cbn [negb].
    by rewrite bind_print, bind_assoc, bind_path_exists, bind_ret_l. }
  split; [exact Hrun |]. rewrite Hrun. cbn [events snd]. unfold attempted.
  right. apply execute_mark.
Qed.

Lemma git_hooks_interpreter_witness :
  let fs := files [(".pre-commit-config.yaml", File ""); (".git", Dir);
                   (".venv/bin/python", File "")] in
  attempted dry_config (CmdList [".venv/bin/python"; "-m"; "pre_commit"; "install"])
    (events (setup_git_hooks (unix_host []) dry_config fs)).
Proof.
  cbv zeta.
  apply (git_hooks_interpreter (unix_host []) dry_config
           (files [(".pre-commit-config.yaml", File ""); (".git", Dir);
                   (".venv/bin/python", File "")])).
  vm_compute. eauto.
Defined.
